(** * Conversation core of the AWS solutions recommender agent

    A shallow embedding of the multi-intent conversation core
    (intent classification, priority scheduling, result aggregation,
    requirement merging, context retrieval and update, session validation,
    six-pillar alignment) and the properties stated for it.

    Conventions.
    - A Python [str] is the list of its Unicode code points, so that [len] and
      slicing count what Python counts.
    - JSON-like data ([Any], the result of [json.loads]) is the type [value].
    - A function that can raise returns [exn + A]; a function that also reads
      the clock, draws a UUID or touches the tables runs in the monad [M].
    - DynamoDB tables are finite maps and lists held in the [World]; the
      encoding of items on the wire is not part of the model.
    - The functions are embedded as they are written. What keeps a module
      from being imported (a name used in an annotation that the module does
      not import) is outside the functions and not part of the model. *)

From Stdlib Require Import ZArith NArith QArith Ascii String List Lia.
From stdpp Require Import base option list gmap strings sorting.

Set Warnings "-register-all,-clear-no-such-hyp".

Local Open Scope Z_scope.

(** ** Python strings *)

Abbreviation pystr := (list N).

(** Decoding of UTF-8 bytes into code points; used to write literals. *)
Fixpoint utf8_decode (bytes : list N) : pystr :=
  match bytes with
  | [] => []
  | b0 :: r0 =>
    if (b0 <? 128)%N then b0 :: utf8_decode r0
    else if (b0 <? 224)%N then
      match r0 with
      | b1 :: r1 => ((b0 - 192) * 64 + (b1 - 128))%N :: utf8_decode r1
      | _ => []
      end
    else if (b0 <? 240)%N then
      match r0 with
      | b1 :: b2 :: r2 =>
        ((b0 - 224) * 4096 + (b1 - 128) * 64 + (b2 - 128))%N :: utf8_decode r2
      | _ => []
      end
    else
      match r0 with
      | b1 :: b2 :: b3 :: r3 =>
        ((b0 - 240) * 262144 + (b1 - 128) * 4096 + (b2 - 128) * 64 + (b3 - 128))%N
          :: utf8_decode r3
      | _ => []
      end
  end.

(** [u "text"] is the Python literal ['text']. *)
Definition u (s : string) : pystr :=
  utf8_decode (N_of_ascii <$> list_ascii_of_string s).

(** [sep.join(parts)] *)
Fixpoint join (sep : pystr) (parts : list pystr) : pystr :=
  match parts with
  | [] => []
  | p :: rest =>
    match rest with
    | [] => p
    | _ :: _ => p ++ sep ++ join sep rest
    end
  end.

(** The double quote. *)
Definition dq : pystr := [34]%N.

(** [prefix] is a prefix of [s] *)
Fixpoint startswith (prefix s : pystr) : bool :=
  match prefix, s with
  | [], _ => true
  | _ :: _, [] => false
  | a :: prefix', b :: s' => (a =? b)%N && startswith prefix' s'
  end.

(** [sub in s] for two strings *)
Fixpoint contains (sub s : pystr) : bool :=
  startswith sub s ||
  match s with
  | [] => false
  | _ :: s' => contains sub s'
  end.

(** [s.split(sep)] for a non-empty separator: [cur] holds, reversed, the
    characters of the piece being read. *)
Fixpoint split_from (sep : pystr) (fuel : nat) (cur s : pystr) : list pystr :=
  match fuel with
  | O => [rev cur ++ s]
  | S fuel' =>
    match s with
    | [] => [rev cur]
    | c :: s' =>
      if startswith sep s
      then rev cur :: split_from sep fuel' [] (drop (length sep) s)
      else split_from sep fuel' (c :: cur) s'
    end
  end.

Definition split (sep s : pystr) : list pystr :=
  split_from sep (S (length s)) [] s.

(** [c.isspace()] *)
Definition isspace (c : N) : bool :=
  ((9 <=? c) && (c <=? 13) || (28 <=? c) && (c <=? 32) || (c =? 133) || (c =? 160)
   || (c =? 5760) || (8192 <=? c) && (c <=? 8202) || (c =? 8232) || (c =? 8233)
   || (c =? 8239) || (c =? 8287) || (c =? 12288))%N.

Fixpoint lstrip (s : pystr) : pystr :=
  match s with
  | c :: s' => if isspace c then lstrip s' else s
  | [] => []
  end.

(** [s.strip()] *)
Definition strip (s : pystr) : pystr := rev (lstrip (rev (lstrip s))).

(** ** Exceptions and JSON-like values *)

Inductive exn_kind :=
| KeyError | TypeError | ValueError | AttributeError | IndexError
| ValidationError | JSONDecodeError | ProviderError.

(** An instance of [Exception]; [str(e)] is [message e]. *)
Record exn := mk_exn { kind : exn_kind; message : pystr }.

Definition result (A : Type) : Type := exn + A.

#[global] Instance result_ret : MRet result := fun A a => inr a.

#[global] Instance result_bind : MBind result :=
  fun A B k r => match r with inl e => inl e | inr a => k a end.

Definition raise {A} (k : exn_kind) (msg : string) : result A :=
  inl (mk_exn k (u msg)).

(** What [json.loads] can return, and the other [Any] values of the code. A
    [VDict] lists the items of a dict in insertion order; its keys are
    distinct. *)
Inductive value :=
| VNone
| VBool (b : bool)
| VInt (z : Z)
| VFloat (q : Q)
| VStr (s : pystr)
| VList (l : list value)
| VDict (d : list (pystr * value)).

Abbreviation dict := (list (pystr * value)).

(** [bool(v)] *)
Definition truthy (v : value) : bool :=
  match v with
  | VNone => false
  | VBool b => b
  | VInt z => negb (z =? 0)
  | VFloat q => negb (Qeq_bool q 0)
  | VStr s => negb (bool_decide (s = []))
  | VList l => match l with [] => false | _ => true end
  | VDict d => match d with [] => false | _ => true end
  end.

(** [d.get(k)] on a dict, [None] when absent *)
Fixpoint dict_lookup (d : dict) (k : pystr) : option value :=
  match d with
  | [] => None
  | (k', v) :: d' => if bool_decide (k' = k) then Some v else dict_lookup d' k
  end.

(** [d.get(k, default)] *)
Definition dict_get (d : dict) (k : pystr) (default : value) : value :=
  match dict_lookup d k with Some v => v | None => default end.

(** [v.get(k, default)]: only a dict has the method *)
Definition py_get (v : value) (k : pystr) (default : value) : result value :=
  match v with
  | VDict d => mret (dict_get d k default)
  | _ => raise AttributeError "object has no attribute 'get'"
  end.

(** [v[k]] for a string key *)
Definition py_getitem (v : value) (k : pystr) : result value :=
  match v with
  | VDict d =>
    match dict_lookup d k with
    | Some x => mret x
    | None => inl (mk_exn KeyError k)
    end
  | VStr _ | VList _ => raise TypeError "indices must be integers"
  | _ => raise TypeError "object is not subscriptable"
  end.


(** [for x in v]: the items the loop visits *)
Definition py_iter (v : value) : result (list value) :=
  match v with
  | VList l => mret l
  | VDict d => mret ((fun kv => VStr kv.1) <$> d)
  | VStr s => mret ((fun c => VStr [c]) <$> s)
  | _ => raise TypeError "object is not iterable"
  end.

(** [d[k] = v] on a dict: an existing key keeps its place *)
Fixpoint dict_set (d : dict) (k : pystr) (v : value) : dict :=
  match d with
  | [] => [(k, v)]
  | (k', v') :: d' =>
    if bool_decide (k' = k) then (k, v) :: d' else (k', v') :: dict_set d' k v
  end.

(** [d.update(other)] for two dicts *)
Definition dict_update (d other : dict) : dict :=
  foldl (fun acc kv => dict_set acc kv.1 kv.2) d other.

(** ** UUIDs *)

(** A UUID is its integer ([UUID.int]). *)
Definition UUID : Type := N.

#[global] Instance UUID_eq_dec : EqDecision UUID.
Proof. unfold UUID. apply _. Defined.

#[global] Instance UUID_countable : Countable UUID.
Proof. unfold UUID. apply _. Defined.

Definition UUID_int (id : UUID) : N := id.

(** [UUID(int=n)] *)
Definition UUID_of_int (n : N) : UUID := n.

Definition hexchar (d : N) : N := if (d <? 10)%N then (48 + d)%N else (87 + d)%N.

(** The [n] lowest hexadecimal digits of [x], most significant first. *)
Fixpoint hex_digits (n : nat) (x : N) : pystr :=
  match n with
  | O => []
  | S n' => hex_digits n' (x / 16)%N ++ [hexchar (x mod 16)%N]
  end.

(** The number of characters of ['%032x' % x]: the digits of [x], and no
    fewer than 32. *)
Definition hex_width (x : N) : nat :=
  Nat.max 32 (Nat.div (N.to_nat (N.size x) + 3) 4).

(** [str(id)]: with [hex = '%032x' % id.int], the text
    [hex[:8]-hex[8:12]-hex[12:16]-hex[16:20]-hex[20:]]. *)
Definition uuid_str (id : UUID) : pystr :=
  let hex := hex_digits (hex_width (UUID_int id)) (UUID_int id) in
  take 8 hex ++ u "-" ++ take 4 (drop 8 hex) ++ u "-" ++ take 4 (drop 12 hex)
    ++ u "-" ++ take 4 (drop 16 hex) ++ u "-" ++ drop 20 hex.


(** ** Library functions the code relies on

    Their definitions live outside the repository; the development assumes
    nothing of them beyond the one law of [LawfulRuntime], and that only
    where a context blob written by the code is read back. *)
Class Runtime := {
  (** pydantic's coercion of a string to a [UUID] field *)
  uuid_parse : pystr -> option UUID;
  (** [json.loads] *)
  json_loads : pystr -> result value;
  (** [float(s)] for a string [s] *)
  float_of_str : pystr -> option Q;
  (** [datetime.isoformat()] of a time given in microseconds since the epoch *)
  isoformat : Z -> pystr;
  (** [f"{v:.2f}"] *)
  format_2f : value -> result pystr;
  (** [f"{v}"] *)
  format_str : value -> pystr;
}.

(** The one law: the coercion to a [UUID] reads back what [str] wrote. *)
Class LawfulRuntime (RT : Runtime) : Prop := {
  uuid_parse_str : forall id : UUID, uuid_parse (uuid_str id) = Some id;
}.

(** microseconds in [timedelta(seconds=1)] *)
Definition second : Z := 1000000.

(** Bounds [ge=0.0, le=1.0] of the confidence fields. *)
Definition confidence_in_range (c : Q) : bool := Qle_bool 0 c && Qle_bool c 1.

(** ** models/intent.py *)

Inductive IntentType :=
| ARCHITECTURE_REQUEST | PRICING_QUERY | CLARIFICATION | MODIFICATION.

#[global] Instance IntentType_eq_dec : EqDecision IntentType.
Proof. solve_decision. Defined.

(** [intent_type.value] *)
Definition IntentType_value (t : IntentType) : pystr :=
  match t with
  | ARCHITECTURE_REQUEST => u "architecture_request"
  | PRICING_QUERY => u "pricing_query"
  | CLARIFICATION => u "clarification"
  | MODIFICATION => u "modification"
  end.

(** The member whose value is [s], if any. *)
Definition IntentType_of_value (s : pystr) : option IntentType :=
  if bool_decide (s = u "architecture_request") then Some ARCHITECTURE_REQUEST
  else if bool_decide (s = u "pricing_query") then Some PRICING_QUERY
  else if bool_decide (s = u "clarification") then Some CLARIFICATION
  else if bool_decide (s = u "modification") then Some MODIFICATION
  else None.

(** [IntentType(v)]. A member of the enum is itself a [str], written here as
    the [VStr] of its value. *)
Definition IntentType_call (v : value) : result IntentType :=
  match v with
  | VStr s =>
    match IntentType_of_value s with
    | Some t => mret t
    | None => raise ValueError "not a valid IntentType"
    end
  | _ => raise ValueError "not a valid IntentType"
  end.

Inductive IntentStatus := PENDING | PROCESSING | COMPLETED | FAILED.

#[global] Instance IntentStatus_eq_dec : EqDecision IntentStatus.
Proof. solve_decision. Defined.

Definition IntentStatus_value (s : IntentStatus) : pystr :=
  match s with
  | PENDING => u "pending"
  | PROCESSING => u "processing"
  | COMPLETED => u "completed"
  | FAILED => u "failed"
  end.

Module Intent.
Record t := mk {
  intent_id : UUID;
  message_id : UUID;
  intent_type : IntentType;
  priority : Z;
  confidence : Q;
  extracted_entities : dict;
  status : IntentStatus;
}.

(** [intent.status = s] *)
Definition with_status (s : IntentStatus) (i : t) : t :=
  mk (intent_id i) (message_id i) (intent_type i) (priority i) (confidence i)
     (extracted_entities i) s.

(** The table of [validate_priority]: [{...}.get(intent_type, 3)]. *)
Definition expected_priority (ty : IntentType) : Z :=
  match ty with
  | ARCHITECTURE_REQUEST => 1
  | MODIFICATION => 1
  | PRICING_QUERY => 2
  | CLARIFICATION => 3
  end.

(** The field validator of [priority]. [data] is [info.data]: it holds
    [intent_type] when that field, declared earlier, passed validation. *)
Definition validate_priority (v : Z) (data_intent_type : option IntentType) : Z :=
  match data_intent_type with
  | Some ty =>
    let expected := expected_priority ty in
    if bool_decide (v <> expected) then expected else v
  | None => v
  end.

End Intent.

(** ** models/user_requirement.py *)

Inductive RequirementType := APPLICATION_TYPE | SCALE | CONSTRAINT | PREFERENCE.

#[global] Instance RequirementType_eq_dec : EqDecision RequirementType.
Proof. solve_decision. Defined.

Definition RequirementType_value (t : RequirementType) : pystr :=
  match t with
  | APPLICATION_TYPE => u "application_type"
  | SCALE => u "scale"
  | CONSTRAINT => u "constraint"
  | PREFERENCE => u "preference"
  end.

Definition RequirementType_of_value (s : pystr) : option RequirementType :=
  if bool_decide (s = u "application_type") then Some APPLICATION_TYPE
  else if bool_decide (s = u "scale") then Some SCALE
  else if bool_decide (s = u "constraint") then Some CONSTRAINT
  else if bool_decide (s = u "preference") then Some PREFERENCE
  else None.

(** [RequirementType(v)] *)
Definition RequirementType_call (v : value) : result RequirementType :=
  match v with
  | VStr s =>
    match RequirementType_of_value s with
    | Some t => mret t
    | None => raise ValueError "not a valid RequirementType"
    end
  | _ => raise ValueError "not a valid RequirementType"
  end.

Module UserRequirement.
Record t := mk {
  requirement_id : UUID;
  session_id : UUID;
  extracted_at : Z;
  requirement_type : RequirementType;
  requirement_value : pystr;
  confidence : Q;
  source_message_id : option UUID;
}.
End UserRequirement.

(** ** models/message.py *)

Inductive MessageRole := USER | ASSISTANT.

Definition MessageRole_value (r : MessageRole) : pystr :=
  match r with
  | USER => u "user"
  | ASSISTANT => u "assistant"
  end.

Module Message.
Record t := mk {
  message_id : UUID;
  session_id : UUID;
  timestamp : Z;
  role : MessageRole;
  content : pystr;
  intents : list Intent.t;
  metadata : option dict;
}.
End Message.

(** ** models/conversation.py *)

Module Conversation.
Record t := mk {
  session_id : UUID;
  created_at : Z;
  last_accessed_at : Z;
  expires_at : Z;
  conversation_history : list Message.t;
  current_context : option dict;
  user_preferences : option dict;
}.


End Conversation.

(** ** models/service.py, models/configuration.py,
       models/architecture_recommendation.py *)

Inductive ServiceType :=
| COMPUTE | STORAGE | DATABASE | NETWORKING | SECURITY | MONITORING | OTHER.

Module Service.
Record t := mk {
  service_id : UUID;
  recommendation_id : UUID;
  aws_service_name : pystr;
  service_type : ServiceType;
  role : pystr;
  region : option pystr;
  dependencies : list UUID;
}.
End Service.

Module Configuration.
Record t := mk {
  configuration_id : UUID;
  service_id : UUID;
  config_type : pystr;
  config_value : pystr;
  config_details : option dict;
}.
End Configuration.

Module ArchitectureRecommendation.
Record t := mk {
  recommendation_id : UUID;
  session_id : UUID;
  created_at : Z;
  services : list Service.t;
  configurations : list Configuration.t;
  diagram_data : pystr;
  diagram_url : option pystr;
  pricing : option dict;
  well_architected_alignment : gmap pystr pystr;
  explanation : pystr;
}.
End ArchitectureRecommendation.

(** ** models/context.py *)

Module Context.
Record t := mk {
  context_id : UUID;
  session_id : UUID;
  current_recommendation_id : option UUID;
  extracted_requirements : list UserRequirement.t;
  conversation_summary : option pystr;
  last_intents : option (list Intent.t);
  updated_at : Z;
}.

Definition with_extracted_requirements (rs : list UserRequirement.t) (c : t) : t :=
  mk (context_id c) (session_id c) (current_recommendation_id c) rs
     (conversation_summary c) (last_intents c) (updated_at c).




End Context.

(** ** The world outside the process *)

Inductive Provider := OpenAI | Anthropic | UnknownProvider (name : pystr).

Inductive Purpose := Classification | Extraction.

(** One call of the language-understanding capability: the prompt is built
    from [user_message] and [conversation_context] and sent to the provider. *)
Record LLMRequest := mk_request {
  purpose : Purpose;
  provider : Provider;
  user_message : pystr;
  conversation_context : option (list value);
}.

Record World := mk_world {
  (** [datetime.utcnow()], in microseconds since the epoch *)
  clock : Z;
  (** [uuid4()] returns [entropy uuid_draws] and counts the draw *)
  entropy : nat -> UUID;
  uuid_draws : nat;
  (** the reply text of the provider, or the exception the call ends in *)
  llm : LLMRequest -> result pystr;
  (** table "conversations", hash key [session_id] *)
  conversations : gmap pystr Conversation.t;
  (** table "messages": the items in ascending order of their range key *)
  messages : list Message.t;
  (** table "user_requirements" *)
  user_requirements : list UserRequirement.t;
}.

Definition with_clock (now : Z) (w : World) : World :=
  mk_world now (entropy w) (uuid_draws w) (llm w) (conversations w) (messages w)
           (user_requirements w).

Definition with_conversations (t : gmap pystr Conversation.t) (w : World) : World :=
  mk_world (clock w) (entropy w) (uuid_draws w) (llm w) t (messages w)
           (user_requirements w).

(** Computations that read and change the world and may raise. *)
Definition M (A : Type) : Type := World -> result A * World.

#[global] Instance M_ret : MRet M := fun A a w => (inr a, w).

#[global] Instance M_bind : MBind M :=
  fun A B k m w =>
    match m w with
    | (inl e, w') => (inl e, w')
    | (inr a, w') => k a w'
    end.

Definition lift {A} (r : result A) : M A := fun w => (r, w).

Definition uuid4 : M UUID :=
  fun w =>
    (inr (entropy w (uuid_draws w)),
     mk_world (clock w) (entropy w) (S (uuid_draws w)) (llm w) (conversations w)
              (messages w) (user_requirements w)).

Definition utcnow : M Z := fun w => (inr (clock w), w).

Definition call_llm (rq : LLMRequest) : M pystr := fun w => (llm w rq, w).

(** ** repositories *)

Module ConversationRepository.
(** [table.get_item(Key={"session_id": str(session_id)})] *)
Definition get_by_session_id (session_id : UUID) : M (option Conversation.t) :=
  fun w => (inr (conversations w !! uuid_str session_id), w).

End ConversationRepository.

Module MessageRepository.
(** [table.query] on the hash key, [ScanIndexForward=False], [Limit=limit] *)
Definition get_by_session_id (session_id : UUID) (limit : option nat)
  : M (list Message.t) :=
  fun w =>
    let items :=
      reverse (filter (fun m => Message.session_id m = session_id) (messages w)) in
    (inr (match limit with Some n => take n items | None => items end), w).
End MessageRepository.

Module UserRequirementRepository.
(** [table.query] on the hash key *)
Definition get_by_session_id (session_id : UUID) : M (list UserRequirement.t) :=
  fun w =>
    (inr (filter (fun r => UserRequirement.session_id r = session_id)
                 (user_requirements w)), w).
End UserRequirementRepository.

(** ** pydantic: coercion of inputs and construction of models *)

Definition pydantic_uuid `{!Runtime} (v : value) : option UUID :=
  match v with
  | VStr s => uuid_parse s
  | _ => None
  end.

Definition pydantic_optional_uuid `{!Runtime} (v : value) : result (option UUID) :=
  match v with
  | VNone => mret None
  | _ =>
    match pydantic_uuid v with
    | Some id => mret (Some id)
    | None => raise ValidationError "current_recommendation_id"
    end
  end.

Definition pydantic_str (v : value) : option pystr :=
  match v with
  | VStr s => Some s
  | _ => None
  end.

Definition pydantic_float `{!Runtime} (v : value) : option Q :=
  match v with
  | VFloat q => Some q
  | VInt z => Some (inject_Z z)
  | VBool b => Some (if b then 1%Q else 0%Q)
  | VStr s => float_of_str s
  | _ => None
  end.

(** [float(v)] *)
Definition py_float `{!Runtime} (v : value) : result Q :=
  match v with
  | VFloat q => mret q
  | VInt z => mret (inject_Z z)
  | VBool b => mret (if b then 1%Q else 0%Q)
  | VStr s =>
    match float_of_str s with
    | Some q => mret q
    | None => raise ValueError "could not convert string to float"
    end
  | _ => raise TypeError "float() argument must be a string or a real number"
  end.

(** [Intent(message_id=, intent_type=, priority=, confidence=,
    extracted_entities=, status=)]: [intent_id] comes from [uuid4]; the
    fields are validated in the order of their declaration and the
    construction fails when any of them is refused. *)
Definition Intent_init `{!Runtime} (message_id : pystr) (intent_type : value)
    (priority : Z) (confidence : Q) (extracted_entities : value)
    (status : IntentStatus) : M Intent.t :=
  id ← uuid4;
  lift
    (let data_intent_type :=
       match intent_type with
       | VStr s => IntentType_of_value s
       | _ => None
       end in
     let priority' := Intent.validate_priority priority data_intent_type in
     match uuid_parse message_id, data_intent_type,
           confidence_in_range confidence, extracted_entities with
     | Some mid, Some ty, true, VDict entities =>
       mret (Intent.mk id mid ty priority' confidence entities status)
     | _, _, _, _ => raise ValidationError "Intent"
     end).

(** [UserRequirement(session_id=, requirement_type=, requirement_value=,
    confidence=)] *)
Definition UserRequirement_init `{!Runtime} (session_id : value)
    (requirement_type : RequirementType) (requirement_value : value)
    (confidence : value) : M UserRequirement.t :=
  id ← uuid4;
  now ← utcnow;
  lift
    (match pydantic_uuid session_id, pydantic_str requirement_value,
           pydantic_float confidence with
     | Some sid, Some v, Some c =>
       if confidence_in_range c
       then mret (UserRequirement.mk id sid now requirement_type v c None)
       else raise ValidationError "UserRequirement"
     | _, _, _ => raise ValidationError "UserRequirement"
     end).

(** [Context(session_id=, ...)] from values of the declared types;
    [updated_at] defaults to [utcnow]. *)
Definition Context_init (session_id : UUID) (current_recommendation_id : option UUID)
    (extracted_requirements : list UserRequirement.t)
    (conversation_summary : option pystr) (last_intents : option (list Intent.t))
    (updated_at : option Z) : M Context.t :=
  id ← uuid4;
  now ← utcnow;
  mret (Context.mk id session_id current_recommendation_id extracted_requirements
          conversation_summary last_intents (default now updated_at)).

(** ** [model_dump(mode="json")] *)

Definition dump_option {A} (f : A -> value) (o : option A) : value :=
  match o with
  | Some a => f a
  | None => VNone
  end.

Definition dump_uuid (id : UUID) : value := VStr (uuid_str id).

Definition Intent_model_dump (i : Intent.t) : dict :=
  [ (u "intent_id", dump_uuid (Intent.intent_id i));
    (u "message_id", dump_uuid (Intent.message_id i));
    (u "intent_type", VStr (IntentType_value (Intent.intent_type i)));
    (u "priority", VInt (Intent.priority i));
    (u "confidence", VFloat (Intent.confidence i));
    (u "extracted_entities", VDict (Intent.extracted_entities i));
    (u "status", VStr (IntentStatus_value (Intent.status i))) ].

Definition UserRequirement_model_dump `{!Runtime} (r : UserRequirement.t) : dict :=
  [ (u "requirement_id", dump_uuid (UserRequirement.requirement_id r));
    (u "session_id", dump_uuid (UserRequirement.session_id r));
    (u "extracted_at", VStr (isoformat (UserRequirement.extracted_at r)));
    (u "requirement_type",
       VStr (RequirementType_value (UserRequirement.requirement_type r)));
    (u "requirement_value", VStr (UserRequirement.requirement_value r));
    (u "confidence", VFloat (UserRequirement.confidence r));
    (u "source_message_id", dump_option dump_uuid (UserRequirement.source_message_id r)) ].

Definition Context_model_dump `{!Runtime} (c : Context.t) : dict :=
  [ (u "context_id", dump_uuid (Context.context_id c));
    (u "session_id", dump_uuid (Context.session_id c));
    (u "current_recommendation_id",
       dump_option dump_uuid (Context.current_recommendation_id c));
    (u "extracted_requirements",
       VList ((fun r => VDict (UserRequirement_model_dump r))
                <$> Context.extracted_requirements c));
    (u "conversation_summary", dump_option VStr (Context.conversation_summary c));
    (u "last_intents",
       dump_option (fun l => VList ((fun i => VDict (Intent_model_dump i)) <$> l))
                   (Context.last_intents c));
    (u "updated_at", VStr (isoformat (Context.updated_at c))) ].

(** ** Helpers shared by the services *)

(** [sorted(l, key=key)]: Python's sort is stable, so its result is the stable
    sorted rearrangement, computed here by insertion. *)
Section sorted_by.
Context {A : Type} (key : A -> Z).

Fixpoint insert_by (x : A) (l : list A) : list A :=
  match l with
  | [] => [x]
  | y :: l' => if key x <=? key y then x :: y :: l' else y :: insert_by x l'
  end.

Fixpoint sorted_by (l : list A) : list A :=
  match l with
  | [] => []
  | x :: l' => insert_by x (sorted_by l')
  end.
End sorted_by.

(** [[f(x) for x in l]] with an [f] that acts on the world *)
Fixpoint for_each {A B} (f : A -> M B) (l : list A) : M (list B) :=
  match l with
  | [] => mret []
  | x :: l' => y ← f x; ys ← for_each f l'; mret (y :: ys)
  end.

(** [l[i]] *)
Definition py_index {A} (l : list A) (i : nat) : result A :=
  match l !! i with
  | Some x => mret x
  | None => raise IndexError "list index out of range"
  end.

(** A dict whose keys or values are not JSON-like, as the list of its items
    in insertion order. [d.get(k)]: *)
Fixpoint odict_lookup {K V} `{EqDecision K} (d : list (K * V)) (k : K) : option V :=
  match d with
  | [] => None
  | (k', v) :: d' => if decide (k' = k) then Some v else odict_lookup d' k
  end.

(** [d[k] = v]: an existing key keeps its place *)
Fixpoint odict_set {K V} `{EqDecision K} (d : list (K * V)) (k : K) (v : V)
  : list (K * V) :=
  match d with
  | [] => [(k, v)]
  | (k', v') :: d' =>
    if decide (k' = k) then (k, v) :: d' else (k', v') :: odict_set d' k v
  end.

(** [l[start:]] *)
Definition slice_from {A} (start : Z) (l : list A) : list A :=
  if start <? 0
  then drop (Z.to_nat (Z.max 0 (Z.of_nat (length l) + start))) l
  else drop (Z.to_nat start) l.

(** [len(v)] *)
Definition py_len (v : value) : result nat :=
  match v with
  | VStr s => mret (length s)
  | VList l => mret (length l)
  | VDict d => mret (length d)
  | _ => raise TypeError "object has no len()"
  end.

(** [[f(x) for x in l]] with an [f] that can raise *)
Fixpoint map_result {A B} (f : A -> result B) (l : list A) : result (list B) :=
  match l with
  | [] => mret []
  | x :: l' => y ← f x; ys ← map_result f l'; mret (y :: ys)
  end.

(** The Anthropic branch of both [_call_llm_*] methods: take the JSON out of
    a Markdown code fence when there is one. *)
Definition strip_code_fence (content : pystr) : result pystr :=
  if contains (u "```json") content then
    after ← py_index (split (u "```json") content) 1;
    inside ← py_index (split (u "```") after) 0;
    mret (strip inside)
  else if contains (u "```") content then
    after ← py_index (split (u "```") content) 1;
    inside ← py_index (split (u "```") after) 0;
    mret (strip inside)
  else mret content.

(** The body shared by [_call_llm_for_classification] and
    [_call_llm_for_extraction]. *)
Definition call_llm_for `{!Runtime} (p : Purpose) (llm_provider : Provider)
    (user_message : pystr) (conversation_context : option (list value)) : M value :=
  match llm_provider with
  | OpenAI =>
    content ← call_llm (mk_request p OpenAI user_message conversation_context);
    lift (json_loads content)
  | Anthropic =>
    content ← call_llm (mk_request p Anthropic user_message conversation_context);
    content ← lift (strip_code_fence content);
    lift (json_loads content)
  | UnknownProvider _ => lift (raise ValueError "Unsupported LLM provider")
  end.

(** ** services/intent/classifier.py *)

Module MultiIntentClassifier.
(** [priority_map.get(intent_type, 3)] *)
Definition _get_priority_for_intent_type (intent_type : IntentType) : Z :=
  match intent_type with
  | ARCHITECTURE_REQUEST => 1
  | MODIFICATION => 1
  | PRICING_QUERY => 2
  | CLARIFICATION => 3
  end.

Definition _call_llm_for_classification `{!Runtime} :=
  call_llm_for Classification.

(** The body of the loop of [classify_intents]. *)
Definition intent_of_info `{!Runtime} (message_id : pystr) (intent_info : value)
  : M Intent.t :=
  raw_type ← lift (py_getitem intent_info (u "intent_type"));
  intent_type ← lift (IntentType_call raw_type);
  let priority := _get_priority_for_intent_type intent_type in
  raw_confidence ← lift (py_get intent_info (u "confidence") (VFloat (4 # 5)));
  confidence ← lift (py_float raw_confidence);
  entities ← lift (py_get intent_info (u "extracted_entities") (VDict []));
  Intent_init message_id (VStr (IntentType_value intent_type)) priority confidence
    entities PENDING.

Definition classify_intents `{!Runtime} (llm_provider : Provider)
    (user_message : pystr) (message_id : pystr)
    (conversation_context : option (list value)) : M (list Intent.t) :=
  intent_data ← _call_llm_for_classification llm_provider user_message
                  conversation_context;
  raw ← lift (py_get intent_data (u "intents") (VList []));
  infos ← lift (py_iter raw);
  intents ← for_each (intent_of_info message_id) infos;
  mret (sorted_by Intent.priority intents).

(** One turn of the loop of [_build_classification_prompt]. *)
Definition context_line `{!Runtime} (msg : value) : result pystr :=
  role_value ← py_get msg (u "role") VNone;
  let role :=
    match role_value with
    | VStr s => if bool_decide (s = u "user") then u "用户" else u "助手"
    | _ => u "助手"
    end in
  content ← py_get msg (u "content") (VStr []);
  mret (role ++ u ": " ++ format_str content ++ [10]%N).

(** The variable [context_text] of [_build_classification_prompt]. *)
Definition context_text `{!Runtime} (conversation_context : option (list value))
  : result pystr :=
  match conversation_context with
  | Some (c :: cs) =>
    lines ← map_result context_line (slice_from (-5) (c :: cs));
    mret ([10]%N ++ u "之前的对话：" ++ [10]%N ++ concat lines)
  | _ => mret []
  end.

(** The prompt, line by line. *)
Definition _build_classification_prompt `{!Runtime} (user_message : pystr)
    (conversation_context : option (list value)) : result pystr :=
  context_text ← context_text conversation_context;
  mret
    (join [10]%N
       [
         u "你是一个意图识别专家。请从用户消息中识别所有意图。";
         [];
         context_text;
         [];
         u "用户消息: " ++ user_message;
         [];
         u "请识别以下类型的意图：";
         u "1. architecture_request: 架构请求（请求推荐架构、修改架构等）";
         u "2. pricing_query: 价格查询（询问成本、价格等）";
         u "3. clarification: 澄清请求（需要更多信息、提问等）";
         u "4. modification: 修改请求（修改现有架构、调整配置等）";
         [];
         u "一个消息可能包含多个意图。请识别所有意图并按优先级排序（architecture_request > pricing_query > clarification）。";
         [];
         u "请以JSON格式返回，格式如下：";
         u "{";
         u "  " ++ dq ++ u "intents" ++ dq ++ u ": [";
         u "    {";
         u "      " ++ dq ++ u "intent_type" ++ dq ++ u ": " ++ dq
           ++ u "architecture_request" ++ dq ++ u ",";
         u "      " ++ dq ++ u "confidence" ++ dq ++ u ": 0.9,";
         u "      " ++ dq ++ u "extracted_entities" ++ dq ++ u ": {";
         u "        " ++ dq ++ u "services" ++ dq ++ u ": [" ++ dq ++ u "EC2" ++ dq
           ++ u ", " ++ dq ++ u "RDS" ++ dq ++ u "],";
         u "        " ++ dq ++ u "requirements" ++ dq ++ u ": [" ++ dq ++ u "web应用"
           ++ dq ++ u ", " ++ dq ++ u "1000用户" ++ dq ++ u "]";
         u "      }";
         u "    },";
         u "    {";
         u "      " ++ dq ++ u "intent_type" ++ dq ++ u ": " ++ dq ++ u "pricing_query"
           ++ dq ++ u ",";
         u "      " ++ dq ++ u "confidence" ++ dq ++ u ": 0.85,";
         u "      " ++ dq ++ u "extracted_entities" ++ dq ++ u ": {";
         u "        " ++ dq ++ u "query" ++ dq ++ u ": " ++ dq ++ u "成本" ++ dq;
         u "      }";
         u "    }";
         u "  ]";
         u "}";
         [] ]).
End MultiIntentClassifier.

(** ** services/intent/processor.py *)

Module IntentProcessor.
Definition sort_by_priority (intents : list Intent.t) : list Intent.t :=
  sorted_by Intent.priority intents.

(** One turn of the loop of [get_priority_groups]: the group is created
    empty when its priority is new, then the intent is appended to it. *)
Definition add_to_group (groups : list (Z * list Intent.t)) (intent : Intent.t)
  : list (Z * list Intent.t) :=
  let priority := Intent.priority intent in
  let groups :=
    if bool_decide (odict_lookup groups priority = None)
    then odict_set groups priority []
    else groups in
  match odict_lookup groups priority with
  | Some group => odict_set groups priority (group ++ [intent])
  | None => groups
  end.

Definition get_priority_groups (intents : list Intent.t) : list (Z * list Intent.t) :=
  foldl add_to_group [] intents.

Definition filter_by_type (intents : list Intent.t) (intent_type : IntentType)
  : list Intent.t :=
  filter (fun intent => Intent.intent_type intent = intent_type) intents.

Definition has_architecture_request (intents : list Intent.t) : bool :=
  existsb (fun intent =>
             bool_decide (Intent.intent_type intent ∈ [ARCHITECTURE_REQUEST; MODIFICATION]))
          intents.

Definition has_pricing_query (intents : list Intent.t) : bool :=
  existsb (fun intent => bool_decide (Intent.intent_type intent = PRICING_QUERY)) intents.
End IntentProcessor.

(** ** services/intent/orchestrator.py *)

(** A key of the result mapping: a [UUID] object or a [str]. The two never
    compare equal. *)
Inductive key := KUuid (id : UUID) | KStr (s : pystr).

#[global] Instance key_eq_dec : EqDecision key.
Proof. solve_decision. Defined.

#[global] Instance key_countable : Countable key.
Proof.
  refine (inj_countable'
            (fun k => match k with KUuid id => inl id | KStr s => inr s end)
            (fun x => match x with inl id => KUuid id | inr s => KStr s end) _).
  intros []; reflexivity.
Defined.

Module IntentOrchestrator.
Section handler.
(** The type of the processing context and the handler of one intent,
    [_process_single_intent]; a handler returns its result or raises. *)
Context {C : Type}.
Variable handler : Intent.t -> UUID -> C -> result dict.

(** [{"error": str(e), "success": False}] *)
Definition error_result (e : exn) : dict :=
  [ (u "error", VStr (message e)); (u "success", VBool false) ].

(** One turn of the loop. An intent object is known by its position [k] in
    the caller's list; [store] is that list as the caller sees it. *)
Definition process_one (session_id : UUID) (context : C)
    (acc : gmap key dict * list Intent.t) (entry : nat * Intent.t)
  : gmap key dict * list Intent.t :=
  let '(results, store) := acc in
  let '(k, intent0) := entry in
  let intent := Intent.with_status PROCESSING intent0 in
  match handler intent session_id context with
  | inr res =>
    (<[KUuid (Intent.intent_id intent) := res]> results,
     <[k := Intent.with_status COMPLETED intent]> store)
  | inl e =>
    (<[KUuid (Intent.intent_id intent) := error_result e]> results,
     <[k := Intent.with_status FAILED intent]> store)
  end.

(** Returns the result mapping and the caller's list of intents after the
    call, with the statuses the loop assigned. *)
Definition process_intents (intents : list Intent.t) (session_id : UUID)
    (context : C) : gmap key dict * list Intent.t :=
  let sorted_intents :=
    sorted_by (fun entry => Intent.priority entry.2) (imap pair intents) in
  foldl (process_one session_id context) (∅, intents) sorted_intents.
End handler.

End IntentOrchestrator.

(** ** services/intent/aggregator.py *)

(** [sep.join(parts)] when the parts are values: all must be strings *)
Fixpoint join_values (parts : list value) : result (list pystr) :=
  match parts with
  | [] => mret []
  | VStr s :: rest => ss ← join_values rest; mret (s :: ss)
  | _ :: _ => raise TypeError "sequence item: expected str instance"
  end.

(** [d.update(other)] for an [other] of any type. Python accepts a mapping or
    an iterable of pairs, a pair being any iterable of two items. A pair
    whose key is not a string has no place in a [dict] of this model and is
    reported as raising. *)
Fixpoint update_pairs (d : dict) (pairs : list value) : result dict :=
  match pairs with
  | [] => mret d
  | VList [VStr k; v] :: rest => update_pairs (dict_set d k v) rest
  | VStr [k; v] :: rest => update_pairs (dict_set d [k] (VStr [v])) rest
  | VDict [(k, _); (v, _)] :: rest => update_pairs (dict_set d k (VStr v)) rest
  | _ :: _ => raise TypeError "cannot convert dictionary update sequence element"
  end.

Definition py_update (d : dict) (other : value) : result dict :=
  match other with
  | VDict o => mret (dict_update d o)
  | VList pairs => update_pairs d pairs
  | VStr [] => mret d
  | VStr (_ :: _) => raise ValueError "dictionary update sequence element has length 1"
  | _ => raise TypeError "object is not iterable"
  end.

Module IntentResultAggregator.
(** The dict [aggregated] during the loop. *)
Record acc := mk_acc {
  content_parts : list value;
  recommendations : list value;
  pricing : value;
  diagrams : list value;
  metadata : dict;
}.

(** The dict returned: the same keys and ["content"]. *)
Record t := mk {
  parts : acc;
  content : pystr;
}.

Definition initial : acc := mk_acc [] [] VNone [] [].

Definition add_content (res : dict) (a : acc) : acc :=
  match dict_lookup res (u "content") with
  | Some c =>
    mk_acc (content_parts a ++ [c]) (recommendations a) (pricing a) (diagrams a)
           (metadata a)
  | None => a
  end.

Definition add_recommendation (res : dict) (a : acc) : acc :=
  match dict_lookup res (u "recommendation") with
  | Some r =>
    mk_acc (content_parts a) (recommendations a ++ [r]) (pricing a) (diagrams a)
           (metadata a)
  | None => a
  end.

Definition set_pricing (res : dict) (a : acc) : acc :=
  match dict_lookup res (u "pricing") with
  | Some p =>
    mk_acc (content_parts a) (recommendations a) p (diagrams a) (metadata a)
  | None => a
  end.

Definition add_metadata (res : dict) (a : acc) : result acc :=
  match dict_lookup res (u "metadata") with
  | Some m =>
    md ← py_update (metadata a) m;
    mret (mk_acc (content_parts a) (recommendations a) (pricing a) (diagrams a) md)
  | None => mret a
  end.

(** One turn of the loop over the sorted intents. *)
Definition aggregate_one (intent_results : gmap key dict) (a : acc)
    (intent : Intent.t) : result acc :=
  let intent_id := KStr (uuid_str (Intent.intent_id intent)) in
  match intent_results !! intent_id with
  | None => mret a
  | Some res =>
    if negb (truthy (dict_get res (u "success") (VBool false))) then mret a
    else
      let ty := IntentType_value (Intent.intent_type intent) in
      let a1 :=
        if bool_decide (ty ∈ [u "architecture_request"; u "modification"])
        then add_content res (add_recommendation res a)
        else if bool_decide (ty = u "pricing_query")
        then add_content res (set_pricing res a)
        else if bool_decide (ty = u "clarification")
        then add_content res a
        else a in
      add_metadata res a1
  end.

Fixpoint aggregate_loop (intent_results : gmap key dict) (a : acc)
    (intents : list Intent.t) : result acc :=
  match intents with
  | [] => mret a
  | intent :: rest =>
    a' ← aggregate_one intent_results a intent;
    aggregate_loop intent_results a' rest
  end.

Definition aggregate_results (intent_results : gmap key dict)
    (intents : list Intent.t) : result t :=
  let sorted_intents := sorted_by Intent.priority intents in
  a ← aggregate_loop intent_results initial sorted_intents;
  texts ← join_values (content_parts a);
  mret (mk a (join [10; 10]%N texts)).

(** One line of the recommendations section: [f"- {rec.get('summary', '')}"]. *)
Definition recommendation_line `{!Runtime} (rec : value) : result pystr :=
  summary ← py_get rec (u "summary") (VStr []);
  mret (u "- " ++ format_str summary).

(** [format_multi_intent_response], applied to the dict that
    [aggregate_results] returns. *)
Definition format_multi_intent_response `{!Runtime} (aggregated : t) : result pystr :=
  let a := parts aggregated in
  let main :=
    match content aggregated with
    | [] => []
    | c :: s => [c :: s]
    end in
  recommended ←
    match recommendations a with
    | [] => mret []
    | _ :: _ =>
      lines ← map_result recommendation_line (recommendations a);
      mret (([10]%N ++ u "**架构推荐：**") :: lines)
    end;
  priced ←
    (if truthy (pricing a) then
       match pricing a with
       | VDict d =>
         total ← format_2f (dict_get d (u "total_monthly_cost") (VInt 0));
         mret [ [10]%N ++ u "**价格信息：**"; u "预估月成本: $" ++ total ]
       | _ => mret [ [10]%N ++ u "**价格信息：**" ]
       end
     else mret []);
  mret (join [10]%N (main ++ recommended ++ priced)).
End IntentResultAggregator.

(** ** services/conversation/formatter.py *)

Definition nl : pystr := [10]%N.

Module MultiIntentResponseFormatter.
(** The architecture section. *)
Definition architecture_section (recommendation : ArchitectureRecommendation.t)
  : list value :=
  [ VStr (u "## 架构推荐" ++ nl);
    VStr (ArchitectureRecommendation.explanation recommendation);
    VStr (nl ++ nl ++ u "**推荐的服务：**" ++ nl) ]
  ++ ((fun service =>
         VStr (u "- **" ++ Service.aws_service_name service ++ u "**: "
                 ++ Service.role service ++ nl))
        <$> ArchitectureRecommendation.services recommendation)
  ++ match ArchitectureRecommendation.diagram_url recommendation with
     | Some (c :: url) => [ VStr (nl ++ u "**架构图：** " ++ (c :: url) ++ nl) ]
     | _ => []
     end.

(** One line of the cost breakdown. *)
Definition breakdown_line `{!Runtime} (item : value) : result value :=
  service_name ← py_get item (u "service_name") (VStr []);
  cost ← py_get item (u "monthly_cost") (VInt 0);
  amount ← format_2f cost;
  mret (VStr (u "- " ++ format_str service_name ++ u ": $" ++ amount ++ nl)).

Fixpoint breakdown_lines `{!Runtime} (items : list value) : result (list value) :=
  match items with
  | [] => mret []
  | item :: rest =>
    line ← breakdown_line item;
    lines ← breakdown_lines rest;
    mret (line :: lines)
  end.

(** What one pricing intent appends. *)
Definition pricing_section `{!Runtime} (intent_results : gmap key dict)
    (intent : Intent.t) : result (list value) :=
  let intent_id := KStr (uuid_str (Intent.intent_id intent)) in
  match intent_results !! intent_id with
  | None => mret []
  | Some res =>
    match dict_lookup res (u "pricing") with
    | None => mret []
    | Some pricing =>
      let title := VStr (nl ++ u "## 价格信息" ++ nl) in
      match pricing with
      | VDict d =>
        total ← format_2f (dict_get d (u "total_monthly_cost") (VInt 0));
        let line := VStr (u "**预估月成本**: $" ++ total ++ nl) in
        match dict_lookup d (u "cost_breakdown") with
        | Some breakdown =>
          items ← py_iter breakdown;
          lines ← breakdown_lines items;
          mret ([title; line; VStr (nl ++ u "**成本明细：**" ++ nl)] ++ lines)
        | None => mret [title; line]
        end
      | _ => mret [title]
      end
    end
  end.

(** What one clarification intent appends. *)
Definition clarification_section (intent_results : gmap key dict)
    (intent : Intent.t) : list value :=
  let intent_id := KStr (uuid_str (Intent.intent_id intent)) in
  match intent_results !! intent_id with
  | None => []
  | Some res =>
    match dict_lookup res (u "content") with
    | Some c => [ VStr (nl ++ u "## 说明" ++ nl); c ]
    | None => []
    end
  end.

Fixpoint pricing_sections `{!Runtime} (intent_results : gmap key dict)
    (intents : list Intent.t) : result (list value) :=
  match intents with
  | [] => mret []
  | intent :: rest =>
    here ← pricing_section intent_results intent;
    there ← pricing_sections intent_results rest;
    mret (here ++ there)
  end.

Definition format_response `{!Runtime} (intents : list Intent.t)
    (intent_results : gmap key dict)
    (recommendation : option ArchitectureRecommendation.t) : result pystr :=
  let ty i := IntentType_value (Intent.intent_type i) in
  let architecture_intents :=
    filter (fun i => ty i ∈ [u "architecture_request"; u "modification"]) intents in
  let pricing_intents := filter (fun i => ty i = u "pricing_query") intents in
  let clarification_intents := filter (fun i => ty i = u "clarification") intents in
  let part1 :=
    match architecture_intents, recommendation with
    | _ :: _, Some r => architecture_section r
    | _, _ => []
    end in
  part2 ← pricing_sections intent_results pricing_intents;
  let part3 := clarification_intents ≫= clarification_section intent_results in
  let response_parts := part1 ++ part2 ++ part3 in
  match response_parts with
  | [] => mret (u "已处理您的请求。")
  | _ :: _ => texts ← join_values response_parts; mret (join nl texts)
  end.
End MultiIntentResponseFormatter.

(** ** services/recommendation/requirement_extractor.py *)

Module RequirementExtractor.
Definition _call_llm_for_extraction `{!Runtime} := call_llm_for Extraction.

(** The body of the first loop of [extract_requirements]. *)
Definition requirement_of_data `{!Runtime} (req_data : value) : M UserRequirement.t :=
  session_id ← lift (py_get req_data (u "session_id") (VStr []));
  raw_type ← lift (py_getitem req_data (u "requirement_type"));
  requirement_type ← lift (RequirementType_call raw_type);
  requirement_value ← lift (py_getitem req_data (u "requirement_value"));
  confidence ← lift (py_get req_data (u "confidence") (VFloat (4 # 5)));
  UserRequirement_init session_id requirement_type requirement_value confidence.

(** The merge loop: [existing_values] is computed once, before the loop. *)
Definition merge (previous_requirements requirements : list UserRequirement.t)
  : list UserRequirement.t :=
  let existing_values : gset pystr :=
    list_to_set (UserRequirement.requirement_value <$> previous_requirements) in
  foldl (fun previous req =>
           if bool_decide (UserRequirement.requirement_value req ∉ existing_values)
           then previous ++ [req]
           else previous)
        previous_requirements requirements.

(** The first half of [extract_requirements]: the call and the conversion of
    its reply to [UserRequirement] models. *)
Definition extracted `{!Runtime} (llm_provider : Provider)
    (user_message : pystr) (conversation_context : option (list value))
  : M (list UserRequirement.t) :=
  extracted_data ← _call_llm_for_extraction llm_provider user_message
                     conversation_context;
  raw ← lift (py_get extracted_data (u "requirements") (VList []));
  items ← lift (py_iter raw);
  for_each requirement_of_data items.

Definition extract_requirements `{!Runtime} (llm_provider : Provider)
    (user_message : pystr) (conversation_context : option (list value))
    (previous_requirements : option (list UserRequirement.t))
  : M (list UserRequirement.t) :=
  requirements ← extracted llm_provider user_message conversation_context;
  match previous_requirements with
  | Some (r :: previous) => mret (merge (r :: previous) requirements)
  | _ => mret requirements
  end.

(** One turn of the loop of [_build_extraction_prompt]. *)
Definition context_line `{!Runtime} (msg : value) : result pystr :=
  role ← py_get msg (u "role") (VStr (u "user"));
  content ← py_get msg (u "content") (VStr []);
  mret (format_str role ++ u ": " ++ format_str content ++ [10]%N).

(** The variable [context_text] of [_build_extraction_prompt]. *)
Definition context_text `{!Runtime} (conversation_context : option (list value))
  : result pystr :=
  match conversation_context with
  | Some (c :: cs) =>
    lines ← map_result context_line (slice_from (-5) (c :: cs));
    mret ([10]%N ++ u "Previous conversation:" ++ [10]%N ++ concat lines)
  | _ => mret []
  end.

(** The prompt, line by line. *)
Definition _build_extraction_prompt `{!Runtime} (user_message : pystr)
    (conversation_context : option (list value)) : result pystr :=
  context_text ← context_text conversation_context;
  mret
    (join [10]%N
       [
         u "你是一个AWS架构专家。请从用户的消息中提取需求信息。";
         [];
         context_text;
         [];
         u "用户消息: " ++ user_message;
         [];
         u "请提取以下类型的需求：";
         u "1. application_type: 应用类型（如：web应用、移动应用、数据分析等）";
         u "2. scale: 规模要求（如：用户数量、数据量、请求量等）";
         u "3. constraint: 约束条件（如：高可用性、安全性、成本优化等）";
         u "4. preference: 用户偏好（如：特定区域、特定服务等）";
         [];
         u "请以JSON格式返回提取的需求，格式如下：";
         u "{";
         u "  " ++ dq ++ u "requirements" ++ dq ++ u ": [";
         u "    {";
         u "      " ++ dq ++ u "requirement_type" ++ dq ++ u ": " ++ dq
           ++ u "application_type" ++ dq ++ u ",";
         u "      " ++ dq ++ u "requirement_value" ++ dq ++ u ": " ++ dq ++ u "web应用"
           ++ dq ++ u ",";
         u "      " ++ dq ++ u "confidence" ++ dq ++ u ": 0.9";
         u "    },";
         u "    {";
         u "      " ++ dq ++ u "requirement_type" ++ dq ++ u ": " ++ dq ++ u "scale"
           ++ dq ++ u ",";
         u "      " ++ dq ++ u "requirement_value" ++ dq ++ u ": " ++ dq ++ u "1000用户"
           ++ dq ++ u ",";
         u "      " ++ dq ++ u "confidence" ++ dq ++ u ": 0.85";
         u "    }";
         u "  ]";
         u "}";
         [] ]).
End RequirementExtractor.

(** ** services/conversation/context_retriever.py *)

(** An element of the untyped [messages] list: a [Message] model, or any
    other value, which has no attribute [content]. *)
Inductive pyobj := OMessage (m : Message.t) | OValue (v : value).

(** [msg.content] when [hasattr(msg, "content")] *)
Definition content_attr (msg : pyobj) : option pystr :=
  match msg with
  | OMessage m => Some (Message.content m)
  | OValue _ => None
  end.

Module ContextRetriever.
Definition _summarize_conversation (messages : list pyobj) : pystr :=
  match messages with
  | [] => []
  | _ :: _ =>
    let summary_parts :=
      omap (fun msg => take 100 <$> content_attr msg) (take 5 messages) in
    let summary := join (u " | ") summary_parts in
    if (500 <? length summary)%nat then take 497 summary ++ u "..." else summary
  end.

Definition retrieve_context `{!Runtime} (session_id : UUID) : M (option Context.t) :=
  conversation ← ConversationRepository.get_by_session_id session_id;
  match conversation with
  | None => mret None
  | Some conversation =>
    messages ← MessageRepository.get_by_session_id session_id (Some 50%nat);
    requirements ← UserRequirementRepository.get_by_session_id session_id;
    let current_recommendation_id :=
      match Conversation.current_context conversation with
      | Some (item :: blob) =>
        dict_get (item :: blob) (u "current_recommendation_id") VNone
      | _ => VNone
      end in
    recommendation_id ← lift (pydantic_optional_uuid current_recommendation_id);
    context ← Context_init session_id recommendation_id requirements
                (Some (_summarize_conversation (OMessage <$> messages))) None
                (Some (Conversation.last_accessed_at conversation));
    mret (Some context)
  end.
End ContextRetriever.

(** ** services/conversation/context_updater.py *)

Module ContextUpdater.
(** The merge loop of [update_context]. *)
Definition merge (extracted_requirements new_requirements : list UserRequirement.t)
  : list UserRequirement.t :=
  let existing_req_values : gset pystr :=
    list_to_set (UserRequirement.requirement_value <$> extracted_requirements) in
  foldl (fun extracted req =>
           if bool_decide (UserRequirement.requirement_value req ∉ existing_req_values)
           then extracted ++ [req]
           else extracted)
        extracted_requirements new_requirements.


End ContextUpdater.

(** ** services/conversation/session_manager.py *)

Module SessionManager.
Definition validate_session (session_id : UUID) : M bool :=
  conversation ← ConversationRepository.get_by_session_id session_id;
  match conversation with
  | None => mret false
  | Some conversation =>
    now ← utcnow;
    if Conversation.expires_at conversation <? now then mret false else mret true
  end.

Definition is_session_expired (conversation : Conversation.t) : M bool :=
  now ← utcnow;
  mret (Conversation.expires_at conversation <? now).


Definition restore_context `{!Runtime} (session_id : UUID) : M (option dict) :=
  valid ← validate_session session_id;
  if negb valid then mret None
  else
    context ← ContextRetriever.retrieve_context session_id;
    match context with
    | None => mret None
    | Some context => mret (Some (Context_model_dump context))
    end.

(** [timedelta.days] of a duration given in microseconds: the days, rounded
    towards minus infinity. *)
Definition timedelta_days (duration : Z) : Z := duration / (86400 * second).

Definition get_session_remaining_days (conversation : Conversation.t) : M Z :=
  expired ← is_session_expired conversation;
  if (expired : bool) then mret 0
  else
    now ← utcnow;
    mret (timedelta_days (Conversation.expires_at conversation - now)).
End SessionManager.

(** ** services/aws_knowledge/base.py *)

(** [str.upper], of the standard library. *)
Class Casing := {
  upper : pystr -> pystr;
}.

Module ServiceCategory.
Inductive t :=
| COMPUTE | STORAGE | DATABASE | NETWORKING | SECURITY | MONITORING | ANALYTICS
| APPLICATION_INTEGRATION | MANAGEMENT | OTHER.

Definition value (category : t) : pystr :=
  match category with
  | COMPUTE => u "compute"
  | STORAGE => u "storage"
  | DATABASE => u "database"
  | NETWORKING => u "networking"
  | SECURITY => u "security"
  | MONITORING => u "monitoring"
  | ANALYTICS => u "analytics"
  | APPLICATION_INTEGRATION => u "application_integration"
  | MANAGEMENT => u "management"
  | OTHER => u "other"
  end.
End ServiceCategory.

Module WellArchitectedPillar.
Inductive t :=
| OPERATIONAL_EXCELLENCE | SECURITY | RELIABILITY | PERFORMANCE_EFFICIENCY
| COST_OPTIMIZATION | SUSTAINABILITY.

#[global] Instance eq_dec : EqDecision t.
Proof. solve_decision. Defined.

Definition value (pillar : t) : pystr :=
  match pillar with
  | OPERATIONAL_EXCELLENCE => u "operational_excellence"
  | SECURITY => u "security"
  | RELIABILITY => u "reliability"
  | PERFORMANCE_EFFICIENCY => u "performance_efficiency"
  | COST_OPTIMIZATION => u "cost_optimization"
  | SUSTAINABILITY => u "sustainability"
  end.
End WellArchitectedPillar.

Module ServiceMetadata.
Record t := mk {
  service_name : pystr;
  display_name : pystr;
  category : ServiceCategory.t;
  description : pystr;
  use_cases : list pystr;
  capabilities : list pystr;
  limitations : list pystr;
  dependencies : list pystr;
  (** a dict: the items in insertion order, the keys distinct *)
  well_architected_alignment : list (WellArchitectedPillar.t * pystr);
  pricing_model : pystr;
  regions : list pystr;
  documentation_url : pystr;
  best_practices : list pystr;
  common_configurations : list dict;
}.
End ServiceMetadata.

Module AWSKnowledgeBase.
(** [self.services], a dict from name to metadata. *)
Definition t : Type := list (pystr * ServiceMetadata.t).

(** [AWSKnowledgeBase()] *)
Definition empty : t := [].

Definition add_service (service : ServiceMetadata.t) (kb : t) : t :=
  odict_set kb (ServiceMetadata.service_name service) service.

Definition get_service `{!Casing} (kb : t) (service_name : pystr)
  : option ServiceMetadata.t :=
  odict_lookup kb (upper service_name).

End AWSKnowledgeBase.

(** ** services/aws_knowledge/catalog.py *)

Module AWSServiceCatalog.
(** The list [default_services] of [_load_default_catalog], each entry as the
    [ServiceMetadata] built from it. *)
Definition default_services : list ServiceMetadata.t :=
  [ ServiceMetadata.mk (u "EC2") (u "Amazon Elastic Compute Cloud")
      ServiceCategory.COMPUTE (u "Virtual servers in the cloud")
      [ u "Web applications"; u "Batch processing"; u "High-performance computing" ]
      [ u "Scalable compute"; u "Multiple instance types"; u "Auto Scaling" ]
      [ u "Requires management"; u "No automatic scaling without configuration" ]
      [ u "VPC"; u "IAM" ]
      [ (WellArchitectedPillar.OPERATIONAL_EXCELLENCE,
         u "Supports automation and monitoring");
        (WellArchitectedPillar.SECURITY, u "Network security groups, IAM roles");
        (WellArchitectedPillar.RELIABILITY,
         u "Multiple Availability Zones, Auto Scaling");
        (WellArchitectedPillar.PERFORMANCE_EFFICIENCY,
         u "Wide range of instance types");
        (WellArchitectedPillar.COST_OPTIMIZATION,
         u "Reserved Instances, Spot Instances");
        (WellArchitectedPillar.SUSTAINABILITY,
         u "Right-sizing instances reduces waste") ]
      (u "Pay per hour based on instance type") [ u "All AWS regions" ]
      (u "https://docs.aws.amazon.com/ec2/")
      [ u "Use Auto Scaling groups"; u "Enable CloudWatch monitoring";
        u "Use IAM roles instead of access keys" ]
      [ [ (u "instance_type", VStr (u "t3.micro"));
          (u "use_case", VStr (u "Development")) ];
        [ (u "instance_type", VStr (u "t3.medium"));
          (u "use_case", VStr (u "Small production")) ];
        [ (u "instance_type", VStr (u "m5.large"));
          (u "use_case", VStr (u "Medium production")) ] ];
    ServiceMetadata.mk (u "RDS") (u "Amazon Relational Database Service")
      ServiceCategory.DATABASE (u "Managed relational database service")
      [ u "Web applications"; u "Enterprise applications"; u "Data analytics" ]
      [ u "Managed backups"; u "Multi-AZ deployment"; u "Read replicas" ]
      [ u "Limited to relational databases"; u "VPC-bound" ]
      [ u "VPC"; u "IAM" ]
      [ (WellArchitectedPillar.OPERATIONAL_EXCELLENCE,
         u "Automated backups and patching");
        (WellArchitectedPillar.SECURITY, u "Encryption at rest and in transit");
        (WellArchitectedPillar.RELIABILITY,
         u "Multi-AZ deployment, automated backups");
        (WellArchitectedPillar.PERFORMANCE_EFFICIENCY,
         u "Optimized database instances");
        (WellArchitectedPillar.COST_OPTIMIZATION, u "Reserved Instances available");
        (WellArchitectedPillar.SUSTAINABILITY,
         u "Right-sized instances reduce waste") ]
      (u "Pay per hour based on instance type and storage") [ u "All AWS regions" ]
      (u "https://docs.aws.amazon.com/rds/")
      [ u "Enable Multi-AZ for production"; u "Use automated backups";
        u "Enable encryption" ]
      [ [ (u "engine", VStr (u "MySQL"));
          (u "instance_class", VStr (u "db.t3.micro"));
          (u "use_case", VStr (u "Development")) ];
        [ (u "engine", VStr (u "PostgreSQL"));
          (u "instance_class", VStr (u "db.t3.medium"));
          (u "use_case", VStr (u "Small production")) ] ];
    ServiceMetadata.mk (u "S3") (u "Amazon Simple Storage Service")
      ServiceCategory.STORAGE (u "Object storage service")
      [ u "Data backup"; u "Static website hosting"; u "Data lakes" ]
      [ u "Unlimited storage"; u "Versioning"; u "Lifecycle policies" ]
      [ u "Eventual consistency"; u "No file system interface" ]
      [ u "IAM" ]
      [ (WellArchitectedPillar.OPERATIONAL_EXCELLENCE,
         u "Automated lifecycle policies");
        (WellArchitectedPillar.SECURITY, u "Bucket policies, encryption");
        (WellArchitectedPillar.RELIABILITY, u "99.999999999% durability");
        (WellArchitectedPillar.PERFORMANCE_EFFICIENCY, u "Multiple storage classes");
        (WellArchitectedPillar.COST_OPTIMIZATION,
         u "Lifecycle policies, storage classes");
        (WellArchitectedPillar.SUSTAINABILITY, u "Efficient storage utilization") ]
      (u "Pay per GB stored and data transfer") [ u "All AWS regions" ]
      (u "https://docs.aws.amazon.com/s3/")
      [ u "Enable versioning for critical data"; u "Use lifecycle policies";
        u "Enable encryption" ]
      [ [ (u "storage_class", VStr (u "STANDARD"));
          (u "use_case", VStr (u "Frequently accessed")) ];
        [ (u "storage_class", VStr (u "STANDARD_IA"));
          (u "use_case", VStr (u "Infrequently accessed")) ] ];
    ServiceMetadata.mk (u "VPC") (u "Amazon Virtual Private Cloud")
      ServiceCategory.NETWORKING (u "Isolated network environment")
      [ u "Network isolation"; u "Hybrid cloud"; u "Multi-tier applications" ]
      [ u "Subnets"; u "Route tables"; u "NAT gateways" ]
      [ u "Requires configuration"; u "Regional scope" ]
      []
      [ (WellArchitectedPillar.OPERATIONAL_EXCELLENCE,
         u "Infrastructure as Code support");
        (WellArchitectedPillar.SECURITY, u "Network isolation, security groups");
        (WellArchitectedPillar.RELIABILITY, u "Multiple Availability Zones");
        (WellArchitectedPillar.PERFORMANCE_EFFICIENCY, u "Low latency networking");
        (WellArchitectedPillar.COST_OPTIMIZATION, u "Pay only for what you use");
        (WellArchitectedPillar.SUSTAINABILITY, u "Efficient network utilization") ]
      (u "Pay per hour for NAT gateways, data transfer") [ u "All AWS regions" ]
      (u "https://docs.aws.amazon.com/vpc/")
      [ u "Use multiple Availability Zones"; u "Implement security groups properly";
        u "Use NAT gateways for outbound internet" ]
      [] ].

Definition _load_default_catalog (kb : AWSKnowledgeBase.t) : AWSKnowledgeBase.t :=
  foldl (fun kb service => AWSKnowledgeBase.add_service service kb) kb default_services.

(** [AWSServiceCatalog().get_knowledge_base()]: no catalog path, so the
    default catalog is loaded into an empty knowledge base. *)
Definition get_knowledge_base : AWSKnowledgeBase.t :=
  _load_default_catalog AWSKnowledgeBase.empty.
End AWSServiceCatalog.

(** ** services/aws_knowledge/validator.py *)

Module AWSServiceValidator.
(** The dict that [validate_service] returns. *)
Record service_result := mk_service_result {
  service_valid : bool;
  service_warnings : list pystr;
  service_errors : list pystr;
  service_metadata : option ServiceMetadata.t;
}.

(** The dict that [validate_architecture] returns. *)
Record t := mk {
  valid : bool;
  warnings : list pystr;
  errors : list pystr;
  (** a dict from pillar key to description *)
  well_architected_alignment : list (pystr * pystr);
  service_validations : list service_result;
}.

Section knowledge_base.
Context `{!Casing}.
(** [self.knowledge_base] *)
Variable knowledge_base : AWSKnowledgeBase.t.

(** The check of the best practices is left empty: no warning is issued. *)
Definition _validate_configuration (service_metadata : ServiceMetadata.t)
    (configuration : gmap pystr (UUID + value)) : list pystr :=
  [].

Definition validate_service (service_name : pystr)
    (configuration : option (gmap pystr (UUID + value))) : service_result :=
  match AWSKnowledgeBase.get_service knowledge_base service_name with
  | None =>
    mk_service_result false []
      [ u "Service '" ++ service_name ++ u "' not found in knowledge base" ] None
  | Some service_metadata =>
    let config_warnings :=
      match configuration with
      | Some configuration =>
        if bool_decide (size configuration = 0%nat) then []
        else _validate_configuration service_metadata configuration
      | None => []
      end in
    mk_service_result true config_warnings [] (Some service_metadata)
  end.

(** One turn of the inner loop of [_check_well_architected_alignment]; the
    six keys are in [alignment] from the start. *)
Definition add_description (alignment : list (pystr * pystr))
    (item : WellArchitectedPillar.t * pystr) : list (pystr * pystr) :=
  let pillar := WellArchitectedPillar.value item.1 in
  match odict_lookup alignment pillar with
  | Some (c :: current) => odict_set alignment pillar ((c :: current) ++ u "; " ++ item.2)
  | Some [] => odict_set alignment pillar item.2
  | None => alignment
  end.

Definition _check_well_architected_alignment (services : list pystr)
  : list (pystr * pystr) :=
  let alignment :=
    [ (u "operational_excellence", []); (u "security", []); (u "reliability", []);
      (u "performance_efficiency", []); (u "cost_optimization", []);
      (u "sustainability", []) ] in
  foldl (fun alignment service_name =>
           match AWSKnowledgeBase.get_service knowledge_base service_name with
           | Some service_metadata =>
             foldl add_description alignment
                   (ServiceMetadata.well_architected_alignment service_metadata)
           | None => alignment
           end)
        alignment services.

(** [c.get("service_name") == service_name] *)
Definition names_service (service_name : pystr) (c : gmap pystr (UUID + value)) : bool :=
  match c !! u "service_name" with
  | Some (inr (VStr name)) => bool_decide (name = service_name)
  | _ => false
  end.

(** [next((c for c in configurations if c.get("service_name") == service_name),
    None)], when [configurations] is given and not empty. *)
Definition service_config (configurations : option (list (gmap pystr (UUID + value))))
    (service_name : pystr) : option (gmap pystr (UUID + value)) :=
  match configurations with
  | Some (c :: cs) =>
    head (filter (fun c => names_service service_name c = true) (c :: cs))
  | _ => None
  end.

(** One turn of the loop of [validate_architecture]. *)
Definition validate_one (configurations : option (list (gmap pystr (UUID + value))))
    (res : t) (service_name : pystr) : t :=
  let service_result :=
    validate_service service_name (service_config configurations service_name) in
  mk (if service_valid service_result then valid res else false)
     (warnings res ++ service_warnings service_result)
     (if service_valid service_result then errors res
      else errors res ++ service_errors service_result)
     (well_architected_alignment res)
     (service_validations res ++ [service_result]).

Definition validate_architecture (services : list pystr)
    (configurations : option (list (gmap pystr (UUID + value)))) : t :=
  let res := foldl (validate_one configurations) (mk true [] [] [] []) services in
  mk (valid res) (warnings res) (errors res)
     (_check_well_architected_alignment services) (service_validations res).
End knowledge_base.
End AWSServiceValidator.

(** ** services/recommendation/well_architected.py *)

Module WellArchitectedChecker.



Section validator.
(** [self.validator.validate_architecture], the injected collaborator. *)
Variable validate_architecture :
  list pystr -> list (gmap pystr (UUID + value)) -> dict.



End validator.
End WellArchitectedChecker.

(** ** agents/state/agent_state.py and the first node of
       services/conversation/orchestrator.py *)

Module AgentState.
Record t := mk {
  session_id : UUID;
  conversation : option Conversation.t;
  messages : list Message.t;
  conversation_history : list value;
  current_message : option pystr;
  extracted_requirements : list UserRequirement.t;
  recognized_intents : list Intent.t;
  current_recommendation : option ArchitectureRecommendation.t;
  recommendations_history : list ArchitectureRecommendation.t;
  requires_clarification : bool;
  clarification_questions : list pystr;
  processing_complete : bool;
  errors : list pystr;
  warnings : list pystr;
}.

(** [state.recognized_intents = intents] *)
Definition with_recognized_intents (intents : list Intent.t) (s : t) : t :=
  mk (session_id s) (conversation s) (messages s) (conversation_history s)
     (current_message s) (extracted_requirements s) intents
     (current_recommendation s) (recommendations_history s)
     (requires_clarification s) (clarification_questions s)
     (processing_complete s) (errors s) (warnings s).

(** [state.extracted_requirements = requirements] *)
Definition with_extracted_requirements (requirements : list UserRequirement.t) (s : t)
  : t :=
  mk (session_id s) (conversation s) (messages s) (conversation_history s)
     (current_message s) requirements (recognized_intents s)
     (current_recommendation s) (recommendations_history s)
     (requires_clarification s) (clarification_questions s)
     (processing_complete s) (errors s) (warnings s).

(** [{"role": message.role.value, "content": message.content}] *)
Definition history_entry (message : Message.t) : value :=
  VDict [ (u "role", VStr (MessageRole_value (Message.role message)));
          (u "content", VStr (Message.content message)) ].

Definition add_message (message : Message.t) (s : t) : t :=
  mk (session_id s) (conversation s) (messages s ++ [message])
     (conversation_history s ++ [history_entry message])
     (current_message s) (extracted_requirements s) (recognized_intents s)
     (current_recommendation s) (recommendations_history s)
     (requires_clarification s) (clarification_questions s)
     (processing_complete s) (errors s) (warnings s).

(** [self.conversation_history[-limit:]] *)
Definition get_recent_context (limit : Z) (s : t) : list value :=
  slice_from (- limit) (conversation_history s).
End AgentState.


(** ** services/conversation/history_manager.py *)

Module HistoryManager.
Definition get_context_messages `{!Runtime} (max_messages : nat) (session_id : UUID)
    (limit : option nat) : M (list value) :=
  let limit :=
    match limit with
    | Some (S n) => S n
    | _ => max_messages
    end in
  messages ← MessageRepository.get_by_session_id session_id (Some limit);
  mret ((fun msg =>
           VDict [ (u "role", VStr (MessageRole_value (Message.role msg)));
                   (u "content", VStr (Message.content msg));
                   (u "timestamp", VStr (isoformat (Message.timestamp msg))) ])
          <$> messages).

Definition get_recent_context `{!Runtime} (max_messages : nat) (session_id : UUID)
    (last_n : nat) : M (list value) :=
  get_context_messages max_messages session_id (Some last_n).

(** [len(msg.get("content", ""))] *)
Definition content_length (msg : value) : result nat :=
  content ← py_get msg (u "content") (VStr []);
  py_len content.

Definition estimate_tokens (messages : list value) : result Z :=
  lengths ← map_result content_length messages;
  let total_chars := Z.of_nat (sum_list lengths) in
  mret (total_chars / 4).

Definition should_summarize (messages : list value) (max_tokens : Z) : result bool :=
  estimated_tokens ← estimate_tokens messages;
  mret (max_tokens <? estimated_tokens).
End HistoryManager.

Module ConversationOrchestrator.
Definition _classify_intents_node `{!Runtime} (llm_provider : Provider)
    (state : AgentState.t) : M AgentState.t :=
  id ← uuid4;
  let temp_message_id := uuid_str id in
  intents ← MultiIntentClassifier.classify_intents llm_provider
              (default [] (AgentState.current_message state)) temp_message_id
              (Some (AgentState.conversation_history state));
  mret (AgentState.with_recognized_intents intents state).

Section graph.
Context `{!Runtime}.
(** The graph is linear and [classify_intents] is its entry point: the
    engine runs the nodes in order and a node's exception ends the run. What
    follows the first node (the other four nodes, whose recommender is not
    among the sources, and the construction of the response from the final
    state) is a parameter. *)
Variable after_classification : AgentState.t -> M dict.

End graph.
End ConversationOrchestrator.

(** ** A runtime for the examples *)

Definition hexval (c : N) : option N :=
  if ((48 <=? c) && (c <=? 57))%N then Some (c - 48)%N
  else if ((97 <=? c) && (c <=? 102))%N then Some (c - 87)%N
  else if ((65 <=? c) && (c <=? 70))%N then Some (c - 55)%N
  else None.

Definition unhex_step (acc : option N) (c : N) : option N :=
  match acc, hexval c with
  | Some a, Some d => Some (16 * a + d)%N
  | _, _ => None
  end.

Definition unhex (s : pystr) : option N := foldl unhex_step (Some 0%N) s.

(** Reads the hyphenated and the plain hexadecimal form. *)
Definition parse_uuid (s : pystr) : option UUID :=
  let hex := filter (fun c => c <> 45%N) s in
  if bool_decide (32 <= length hex)%nat then UUID_of_int <$> unhex hex else None.

(** Decimal digits of a natural number, at least [width] of them. *)
Fixpoint decimal_from (fuel : nat) (width : nat) (n : N) : pystr :=
  match fuel with
  | O => []
  | S fuel' =>
    if ((n <? 10)%N && (width <=? 1)%nat)%bool then [(48 + n)%N]
    else decimal_from fuel' (pred width) (n / 10)%N ++ [(48 + n mod 10)%N]
  end.

Definition decimal (width : nat) (n : N) : pystr :=
  decimal_from (S (N.to_nat (N.log2 n)) + width) width n.

Definition decimal_Z (z : Z) : pystr :=
  if z <? 0 then u "-" ++ decimal 1 (Z.to_N (- z)) else decimal 1 (Z.to_N z).

(** The civil date of a day number counted from 1970-01-01. *)
Definition civil_from_days (days : Z) : Z * Z * Z :=
  let z := days + 719468 in
  let era := z / 146097 in
  let doe := z - era * 146097 in
  let yoe := (doe - doe / 1460 + doe / 36524 - doe / 146096) / 365 in
  let doy := doe - (365 * yoe + yoe / 4 - yoe / 100) in
  let mp := (5 * doy + 2) / 153 in
  let d := doy - (153 * mp + 2) / 5 + 1 in
  let m := if mp <? 10 then mp + 3 else mp - 9 in
  let y := yoe + era * 400 + (if m <=? 2 then 1 else 0) in
  (y, m, d).

Definition sample_isoformat (t : Z) : pystr :=
  let days := t / (86400 * second) in
  let rest := t mod (86400 * second) in
  let '(y, m, d) := civil_from_days days in
  let secs := rest / second in
  let micros := rest mod second in
  decimal 4 (Z.to_N y) ++ u "-" ++ decimal 2 (Z.to_N m) ++ u "-" ++ decimal 2 (Z.to_N d)
    ++ u "T" ++ decimal 2 (Z.to_N (secs / 3600)) ++ u ":"
    ++ decimal 2 (Z.to_N (secs / 60 mod 60)) ++ u ":" ++ decimal 2 (Z.to_N (secs mod 60))
    ++ (if micros =? 0 then [] else u "." ++ decimal 6 (Z.to_N micros)).

(** Hundredths of a rational, rounded half to even. *)
Definition round_hundredths (q : Q) : Z :=
  let n := 200 * Qnum q in
  let d := 2 * Zpos (Qden q) in
  let f := n / d in
  let r := n mod d in
  if 2 * r <? d then f
  else if d <? 2 * r then f + 1
  else if Z.even f then f else f + 1.

Definition format_hundredths (h : Z) : pystr :=
  let a := Z.abs h in
  (if h <? 0 then u "-" else []) ++ decimal 1 (Z.to_N (a / 100)) ++ u "."
    ++ decimal 2 (Z.to_N (a mod 100)).

Definition sample_format_2f (v : value) : result pystr :=
  match v with
  | VInt z => mret (format_hundredths (100 * z))
  | VBool b => mret (format_hundredths (if b then 100 else 0))
  | VFloat q => mret (format_hundredths (round_hundredths q))
  | VStr _ => raise ValueError "Unknown format code 'f' for object of type 'str'"
  | _ => raise TypeError "unsupported format string"
  end.

(** [str] of the values the examples format. *)
Definition sample_format_str (v : value) : pystr :=
  match v with
  | VStr s => s
  | VInt z => decimal_Z z
  | VBool true => u "True"
  | VBool false => u "False"
  | VNone => u "None"
  | VFloat q => format_hundredths (round_hundredths q)
  | VList _ => u "[...]"
  | VDict _ => u "{...}"
  end.

(** The documents [json.loads] can read in the examples: a text stands for
    the value listed with it. *)
Definition sample_json_loads (documents : list (pystr * value)) (s : pystr)
  : result value :=
  match dict_lookup documents s with
  | Some v => mret v
  | None => raise JSONDecodeError "Expecting value"
  end.

(** The runtime of the examples: [json.loads] reads the listed documents. *)
Definition sample_runtime (documents : list (pystr * value)) : Runtime :=
  {| uuid_parse := parse_uuid;
     json_loads := sample_json_loads documents;
     float_of_str := fun _ => None;
     isoformat := sample_isoformat;
     format_2f := sample_format_2f;
     format_str := sample_format_str |}.

(** [str.upper] on the letters of ASCII, for the examples. *)
Definition ascii_upper (s : pystr) : pystr :=
  (fun c => if ((97 <=? c) && (c <=? 122))%N then (c - 32)%N else c) <$> s.

Definition sample_casing : Casing := {| upper := ascii_upper |}.

(** * The vocabulary of the statements *)



(** The world after one draw of [uuid4]. *)
Definition drawn (w : World) : World := (uuid4 w).2.

(** The value [retrieve_context] reads from the context blob. *)
Definition blob_recommendation_id (conversation : Conversation.t) : value :=
  match Conversation.current_context conversation with
  | Some (item :: blob) => dict_get (item :: blob) (u "current_recommendation_id") VNone
  | _ => VNone
  end.

(** The requirement set the Requirement Store holds for a session. *)
Definition stored_requirements (w : World) (session_id : UUID)
  : list UserRequirement.t :=
  filter (fun r => UserRequirement.session_id r = session_id) (user_requirements w).

Definition stored_summary (w : World) (session_id : UUID) : pystr :=
  ContextRetriever._summarize_conversation
    (OMessage <$> take 50
       (reverse (filter (fun m => Message.session_id m = session_id) (messages w)))).


(** [m] after [m[f e] = g e] for each [e] of [es], in order. *)
Definition insert_all {E K V : Type} `{Countable K} (f : E -> K) (g : E -> V)
    (m : gmap K V) (es : list E) : gmap K V :=
  foldl (fun m e => <[f e := g e]> m) m es.

(** [store] after [store[h e] = g e] for each [e] of [es], in order. *)
Definition update_all {E V : Type} (h : E -> nat) (g : E -> V)
    (store : list V) (es : list E) : list V :=
  foldl (fun st e => <[h e := g e]> st) store es.

(** The intent as the loop of [process_intents] leaves it. *)
Definition final_intent {C : Type} (handler : Intent.t -> UUID -> C -> result dict)
    (session_id : UUID) (context : C) (i : Intent.t) : Intent.t :=
  match handler (Intent.with_status PROCESSING i) session_id context with
  | inr _ => Intent.with_status COMPLETED i
  | inl _ => Intent.with_status FAILED i
  end.

(** The entry the loop records for it. *)
Definition final_result {C : Type} (handler : Intent.t -> UUID -> C -> result dict)
    (session_id : UUID) (context : C) (i : Intent.t) : dict :=
  match handler (Intent.with_status PROCESSING i) session_id context with
  | inr res => res
  | inl e => IntentOrchestrator.error_result e
  end.

Definition result_key (entry : nat * Intent.t) : key :=
  KUuid (Intent.intent_id entry.2).

(** The order in which the loop visits the intents, each with its position. *)
Definition visit_order (intents : list Intent.t) : list (nat * Intent.t) :=
  sorted_by (fun entry => Intent.priority entry.2) (imap pair intents).

(** An entry of the result mapping whose [success] flag is true. *)
Definition successful (entry : key * dict) : Prop :=
  truthy (dict_get entry.2 (u "success") (VBool false)) = true.

#[global] Instance successful_dec (entry : key * dict) : Decision (successful entry).
Proof. unfold successful. apply _. Defined.




(** The six keys, in the order of the loop. *)
Definition pillar_keys : list pystr :=
  [ u "operational_excellence"; u "security"; u "reliability";
    u "performance_efficiency"; u "cost_optimization"; u "sustainability" ].


(** Ascending order of the keys. *)
Definition key_le {A : Type} (key : A -> Z) (a b : A) : Prop := key a <= key b.

(** The messages of a session that a query with [Limit=limit] returns: the
    newest first. *)
Definition newest_messages (w : World) (session_id : UUID) (limit : nat)
  : list Message.t :=
  take limit (reverse (filter (fun m => Message.session_id m = session_id) (messages w))).

(** The limit that [get_context_messages] hands to the repository. *)
Definition effective_limit (max_messages : nat) (limit : option nat) : nat :=
  match limit with
  | Some (S n) => S n
  | _ => max_messages
  end.

(** A message as [get_context_messages] formats it. *)
Definition context_entry `{!Runtime} (msg : Message.t) : value :=
  VDict [ (u "role", VStr (MessageRole_value (Message.role msg)));
          (u "content", VStr (Message.content msg));
          (u "timestamp", VStr (isoformat (Message.timestamp msg))) ].

(** The characters of the contents. *)
Definition total_chars (selected : list Message.t) : Z :=
  Z.of_nat (sum_list (length ∘ Message.content <$> selected)).

(** A tuple whose category is none of the four: it is no dict, or has no
    ["intent_type"], or another value under it. *)
Definition unknown_category (info : value) : Prop :=
  forall d ty, info = VDict d ->
               dict_lookup d (u "intent_type") <> Some (VStr (IntentType_value ty)).

(** The descriptions that the services found in the knowledge base give for
    a pillar, in the order of the services and of their items. *)
Definition pillar_descriptions `{!Casing} (kb : AWSKnowledgeBase.t)
    (services : list pystr) (pillar : WellArchitectedPillar.t) : list pystr :=
  service_metadata ← omap (AWSKnowledgeBase.get_service kb) services;
  snd <$> filter (fun item => item.1 = pillar)
                 (ServiceMetadata.well_architected_alignment service_metadata).

(** What the inner loop makes of the text [current] of a pillar when the
    descriptions [descriptions] are met for it. *)
Definition extended (current : pystr) (descriptions : list pystr) : pystr :=
  foldl (fun current description =>
           match current with
           | [] => description
           | _ :: _ => current ++ u "; " ++ description
           end)
        current descriptions.

(** * Examples *)

(** An example turn: the provider answers with three intents, clarification
    first. *)
Definition example_reply : pystr := u "{intents: clarification, pricing_query, modification}".

Definition example_document : value :=
  VDict [ (u "intents",
           VList [ VDict [ (u "intent_type", VStr (u "clarification"));
                           (u "confidence", VFloat (9 # 10)) ];
                   VDict [ (u "intent_type", VStr (u "pricing_query")) ];
                   VDict [ (u "intent_type", VStr (u "modification"));
                           (u "extracted_entities",
                            VDict [ (u "query", VStr (u "cost")) ]) ] ]) ].

Definition example_session : UUID := UUID_of_int 42.

(** The reply of the provider to the extraction call: one requirement. *)
Definition example_extraction_reply : pystr := u "{requirements: scale = 1000 users}".

Definition example_extraction_document : value :=
  VDict [ (u "requirements",
           VList [ VDict [ (u "session_id", VStr (uuid_str example_session));
                           (u "requirement_type", VStr (u "scale"));
                           (u "requirement_value", VStr (u "1000 users")) ] ]) ].

Definition example_runtime : Runtime :=
  sample_runtime [ (example_reply, example_document);
                   (example_extraction_reply, example_extraction_document) ].

Definition example_llm (rq : LLMRequest) : result pystr :=
  match purpose rq with
  | Classification => inr example_reply
  | Extraction => inr example_extraction_reply
  end.

(** The UUIDs that [uuid4] draws in the examples, in this order. *)
Definition example_uuids : list UUID :=
  UUID_of_int <$> [1000; 1001; 1002; 1003; 1004; 1005]%N.

Definition example_entropy (n : nat) : UUID :=
  default (UUID_of_int 0) (example_uuids !! n).

Definition example_world : World :=
  mk_world 0 example_entropy 0 example_llm ∅ [] [].

Definition example_message_id : UUID := UUID_of_int 7.

Definition example_intents : list Intent.t :=
  [ Intent.mk (UUID_of_int 1002) example_message_id MODIFICATION 1 (4 # 5)
              [ (u "query", VStr (u "cost")) ] PENDING;
    Intent.mk (UUID_of_int 1001) example_message_id PRICING_QUERY 2 (4 # 5) [] PENDING;
    Intent.mk (UUID_of_int 1000) example_message_id CLARIFICATION 3 (9 # 10) [] PENDING ].

(** An example session: one stored requirement, of category constraint. *)
Definition example_prior : UserRequirement.t :=
  UserRequirement.mk (UUID_of_int 500) example_session 0 CONSTRAINT (u "1000 users")
                     (4 # 5) None.

Definition example_conversation : Conversation.t :=
  Conversation.mk example_session 0 0 (30 * 86400 * second) [] None None.

Definition example_session_world : World :=
  mk_world 0 example_entropy 0 example_llm
           {[ uuid_str example_session := example_conversation ]} [] [example_prior].


Definition example_novel : UserRequirement.t :=
  UserRequirement.mk (UUID_of_int 501) example_session 0 SCALE (u "10000 users")
                     (4 # 5) None.


(** The example session at the very instant of its expiry. *)
Definition example_world_at_expiry : World :=
  with_clock (Conversation.expires_at example_conversation) example_session_world.

Definition example_state : AgentState.t :=
  AgentState.mk example_session None [] [] (Some (u "how much?")) [] [] None []
                false [] false [] [].




Definition example_service : Service.t :=
  Service.mk (UUID_of_int 900) (UUID_of_int 901) (u "EC2") COMPUTE (u "web server")
             None [].

(** A long conversation: six messages of 120 characters. *)
Definition example_long_messages : list Message.t :=
  replicate 6 (Message.mk (UUID_of_int 1) example_session 0 USER
                          (replicate 120 97%N) [] None).

(** Two messages of the example session. *)
Definition example_user_message : Message.t :=
  Message.mk (UUID_of_int 11) example_session 0 USER (u "I need a web app") [] None.

Definition example_assistant_message : Message.t :=
  Message.mk (UUID_of_int 12) example_session second ASSISTANT (u "Use EC2 and RDS")
             [] None.

(** The example state after the two messages were added. *)
Definition example_history_state : AgentState.t :=
  AgentState.add_message example_assistant_message
    (AgentState.add_message example_user_message example_state).

Definition example_recommendation : ArchitectureRecommendation.t :=
  ArchitectureRecommendation.mk (UUID_of_int 700) example_session 0 [example_service] []
    (u "graph TD") None None ∅ (u "EC2 runs the web tier").

(** A service whose name is not in upper case. *)
Definition example_lambda : ServiceMetadata.t :=
  ServiceMetadata.mk (u "Lambda") (u "AWS Lambda") ServiceCategory.COMPUTE
    (u "Functions") [] [] [] [] [] [] [] [] [] [].

(** A reply with a category that does not exist, and a reply whose
    requirement carries no session id, as in the example of the prompt. *)
Definition example_reply_unknown : pystr := u "{intents: greeting}".

Definition example_document_unknown : value :=
  VDict [ (u "intents",
           VList [ VDict [ (u "intent_type", VStr (u "pricing_query")) ];
                   VDict [ (u "intent_type", VStr (u "greeting")) ] ]) ].

Definition example_reply_no_session : pystr := u "{requirements: scale}".

Definition example_document_no_session : value :=
  VDict [ (u "requirements",
           VList [ VDict [ (u "requirement_type", VStr (u "scale"));
                           (u "requirement_value", VStr (u "1000 users"));
                           (u "confidence", VFloat (9 # 10)) ] ]) ].

Definition example_runtime_replies : Runtime :=
  sample_runtime [ (example_reply_unknown, example_document_unknown);
                   (example_reply_no_session, example_document_no_session) ].

Definition example_world_replies : World :=
  mk_world 0 example_entropy 0
           (fun rq => match purpose rq with
                      | Classification => inr example_reply_unknown
                      | Extraction => inr example_reply_no_session
                      end)
           ∅ [] [].

Definition example_clarification : Intent.t :=
  Intent.mk (UUID_of_int 1000) example_message_id CLARIFICATION 3 (9 # 10) [] PENDING.

Definition example_pricing : Intent.t :=
  Intent.mk (UUID_of_int 1001) example_message_id PRICING_QUERY 2 (4 # 5) [] PENDING.

(** The example session with the six long messages stored. *)
Definition example_long_world : World :=
  mk_world 0 example_entropy 0 example_llm
           {[ uuid_str example_session := example_conversation ]}
           example_long_messages [].

(** * Properties *)

(** ** The helpers compute what Python computes *)

Example u_ascii : u "a|b" = [97; 124; 98]%N.
Proof. reflexivity. Qed.

Example u_cjk : u "安全性" = [23433; 20840; 24615]%N.
Proof. reflexivity. Qed.

Example split_fence :
  split (u "```") (u "a```b```c") = [u "a"; u "b"; u "c"].
Proof. reflexivity. Qed.

Example strip_both : strip (u "  x y ") = u "x y".
Proof. reflexivity. Qed.

Example uuid_str_example :
  uuid_str (UUID_of_int 113059749145936325402354257176981405696)
  = u "550e8400-e29b-41d4-a716-446655440000".
Proof. vm_compute. reflexivity. Qed.


Example sample_isoformat_example :
  sample_isoformat (1737972000 * second) = u "2025-01-27T10:00:00".
Proof. vm_compute. reflexivity. Qed.

(** ** The example runtime reads back the UUIDs it prints *)

Lemma hexval_hexchar (d : N) : (d < 16)%N -> hexval (hexchar d) = Some d.
Proof.
  intros Hd. unfold hexchar, hexval.
  destruct (N.ltb_spec d 10) as [Hlt|Hge].
  - rewrite (proj2 (N.leb_le 48 (48 + d))) by lia.
    rewrite (proj2 (N.leb_le (48 + d) 57)) by lia.
    simpl. f_equal. lia.
  - destruct (N.leb_spec 48 (87 + d)) as [_|?]; [|lia].
    destruct (N.leb_spec (87 + d) 57) as [?|_]; [lia|].
    rewrite (proj2 (N.leb_le 97 (87 + d))) by lia.
    rewrite (proj2 (N.leb_le (87 + d) 102)) by lia.
    simpl. f_equal. lia.
Qed.

Lemma hexchar_not_dash (d : N) : hexchar d <> 45%N.
Proof. unfold hexchar. destruct (d <? 10)%N; lia. Qed.

Lemma hex_digits_length (n : nat) (x : N) : length (hex_digits n x) = n.
Proof.
  revert x. induction n as [|n IH]; intros x; simpl; [done|].
  rewrite length_app, IH. simpl. lia.
Qed.

Lemma hex_digits_no_dash (n : nat) (x : N) :
  Forall (fun c => c <> 45%N) (hex_digits n x).
Proof.
  revert x. induction n as [|n IH]; intros x; simpl; [constructor|].
  apply Forall_app. split; [apply IH|].
  constructor; [apply hexchar_not_dash|constructor].
Qed.

Lemma unhex_hex_digits (n : nat) (x a : N) :
  foldl unhex_step (Some a) (hex_digits n x)
  = Some (a * 16 ^ N.of_nat n + x mod 16 ^ N.of_nat n)%N.
Proof.
  revert x. induction n as [|n IH]; intros x.
  - simpl. f_equal. rewrite N.mod_1_r. lia.
  - simpl hex_digits. rewrite foldl_app, IH. simpl.
    rewrite hexval_hexchar by (apply N.mod_lt; discriminate).
    f_equal. rewrite Nat2N.inj_succ, N.pow_succ_r'.
    rewrite (N.Div0.mod_mul_r x 16 (16 ^ N.of_nat n)). lia.
Qed.

Lemma filter_all {A} (P : A -> Prop) `{!forall x, Decision (P x)} (l : list A) :
  Forall P l -> filter P l = l.
Proof.
  induction 1 as [|x l Hx _ IH]; [done|].
  rewrite filter_cons_True by done. by rewrite IH.
Qed.

Lemma hyphenate_join {A} (h : list A) :
  take 8 h ++ take 4 (drop 8 h) ++ take 4 (drop 12 h) ++ take 4 (drop 16 h)
    ++ drop 20 h = h.
Proof.
  replace (drop 20 h) with (drop 4 (drop 16 h)) by (by rewrite drop_drop).
  rewrite take_drop.
  replace (drop 16 h) with (drop 4 (drop 12 h)) by (by rewrite drop_drop).
  rewrite take_drop.
  replace (drop 12 h) with (drop 4 (drop 8 h)) by (by rewrite drop_drop).
  rewrite take_drop. apply take_drop.
Qed.

Lemma uuid_str_no_dash (id : UUID) :
  filter (fun c => c <> 45%N) (uuid_str id)
  = hex_digits (hex_width (UUID_int id)) (UUID_int id).
Proof.
  unfold uuid_str. cbv zeta.
  set (h := hex_digits (hex_width (UUID_int id)) (UUID_int id)).
  assert (Hh : Forall (fun c => c <> 45%N) h) by apply hex_digits_no_dash.
  clearbody h. change (u "-") with [45%N].
  rewrite !filter_app.
  rewrite !(filter_all _ (take _ _)) by (apply Forall_take; try apply Forall_drop; done).
  rewrite (filter_all _ (drop 20 h)) by (by apply Forall_drop).
  replace (filter (fun c : N => c <> 45%N) [45%N]) with (@nil N) by done.
  simpl. apply hyphenate_join.
Qed.

Lemma hex_width_fits (x : N) : (x < 16 ^ N.of_nat (hex_width x))%N.
Proof.
  eapply N.lt_le_trans; [apply N.size_gt|].
  change 16%N with (2 ^ 4)%N. rewrite <- N.pow_mul_r.
  apply N.pow_le_mono_r; [discriminate|].
  unfold hex_width.
  pose proof (Nat.div_mod (N.to_nat (N.size x) + 3) 4 ltac:(discriminate)) as Hdm.
  pose proof (Nat.mod_upper_bound (N.to_nat (N.size x) + 3) 4 ltac:(discriminate)).
  lia.
Qed.

Lemma parse_uuid_str (id : UUID) : parse_uuid (uuid_str id) = Some id.
Proof.
  unfold parse_uuid. cbv zeta. rewrite uuid_str_no_dash.
  rewrite bool_decide_eq_true_2
    by (rewrite hex_digits_length; unfold hex_width; lia).
  unfold unhex. rewrite unhex_hex_digits. simpl fmap. f_equal.
  unfold UUID_of_int, UUID_int. rewrite N.mul_0_l, N.add_0_l.
  apply N.mod_small, hex_width_fits.
Qed.

Lemma sample_runtime_lawful (documents : list (pystr * value)) :
  LawfulRuntime (sample_runtime documents).
Proof. constructor. apply parse_uuid_str. Qed.

Lemma example_runtime_lawful : LawfulRuntime example_runtime.
Proof. apply sample_runtime_lawful. Qed.


(** ** Reasoning about the two monads *)

Lemma bind_result_inr {A B} (r : result A) (k : A -> result B) (b : B) :
  r ≫= k = inr b -> exists a, r = inr a /\ k a = inr b.
Proof. destruct r as [e|a]; [discriminate|]. intros H. by exists a. Qed.

Lemma bind_M_inr {A B} (m : M A) (k : A -> M B) (w w' : World) (b : B) :
  (m ≫= k) w = (inr b, w') ->
  exists a w1, m w = (inr a, w1) /\ k a w1 = (inr b, w').
Proof.
  unfold mbind, M_bind. destruct (m w) as [[e|a] w1]; [discriminate|].
  intros H. by exists a, w1.
Qed.

Lemma bind_M_inl {A B} (m : M A) (k : A -> M B) (w w' : World) (e : exn) :
  m w = (inl e, w') -> (m ≫= k) w = (inl e, w').
Proof. unfold mbind, M_bind. by intros ->. Qed.

Lemma bind_M_step {A B} (m : M A) (k : A -> M B) (w w1 : World) (a : A) :
  m w = (inr a, w1) -> (m ≫= k) w = k a w1.
Proof. unfold mbind, M_bind. by intros ->. Qed.

Lemma lift_inr {A} (r : result A) (w w' : World) (a : A) :
  lift r w = (inr a, w') -> r = inr a /\ w' = w.
Proof. unfold lift. intros [= -> ->]. done. Qed.

Lemma ret_M_inr {A} (a b : A) (w w' : World) :
  (mret a : M A) w = (inr b, w') -> b = a /\ w' = w.
Proof. unfold mret, M_ret. intros [= -> ->]. done. Qed.

(** Splits a successful run of a sequence of binds into its steps. *)
Ltac run_inv H :=
  repeat
    match type of H with
    | (_ ≫= _) _ = (inr _, _) =>
      let a := fresh "a" in
      let w := fresh "w" in
      let Ha := fresh "Hrun" in
      apply bind_M_inr in H; destruct H as (a & w & Ha & H)
    end.

Lemma for_each_Forall {RT : Runtime} {A B} (f : A -> M B) (P : B -> Prop)
    (l : list A) (w w' : World) (ys : list B) :
  (forall x w0 y w1, f x w0 = (inr y, w1) -> P y) ->
  for_each f l w = (inr ys, w') -> Forall P ys.
Proof.
  intros Hf. revert w ys. induction l as [|x l IH]; intros w ys H; simpl in H.
  - apply ret_M_inr in H as [-> _]. constructor.
  - run_inv H. apply ret_M_inr in H as [-> ->].
    constructor; eauto.
Qed.

(** ** The stable sort *)

Section sorted_by_facts.
Context {A : Type} (key : A -> Z).

Lemma insert_by_perm (x : A) (l : list A) : insert_by key x l ≡ₚ x :: l.
Proof.
  induction l as [|y l IH]; simpl; [done|].
  destruct (key x <=? key y); [done|].
  rewrite IH. apply Permutation_swap.
Qed.

Lemma sorted_by_perm (l : list A) : sorted_by key l ≡ₚ l.
Proof.
  induction l as [|x l IH]; simpl; [done|].
  rewrite insert_by_perm. by rewrite IH.
Qed.

Lemma insert_by_sorted (x : A) (l : list A) :
  StronglySorted (key_le key) l -> StronglySorted (key_le key) (insert_by key x l).
Proof.
  induction 1 as [|y l Hl IH Hy]; simpl.
  - repeat constructor.
  - destruct (Z.leb_spec (key x) (key y)) as [Hxy|Hxy].
    + constructor; [by constructor|].
      constructor; [done|].
      eapply Forall_impl; [exact Hy|]. unfold key_le. intros z ?. lia.
    + constructor; [done|].
      rewrite insert_by_perm. constructor; [unfold key_le; lia|done].
Qed.

Lemma sorted_by_sorted (l : list A) : StronglySorted (key_le key) (sorted_by key l).
Proof.
  induction l as [|x l IH]; simpl; [constructor|]. by apply insert_by_sorted.
Qed.

Lemma sorted_by_length (l : list A) : length (sorted_by key l) = length l.
Proof. by rewrite sorted_by_perm. Qed.
End sorted_by_facts.

Lemma insert_by_fmap {A B} (g : A -> B) (key : B -> Z) (x : A) (l : list A) :
  g <$> insert_by (fun a => key (g a)) x l = insert_by key (g x) (g <$> l).
Proof.
  induction l as [|y l IH]; [done|].
  rewrite fmap_cons. cbn [insert_by].
  destruct (key (g x) <=? key (g y)); [done|]. by rewrite fmap_cons, IH.
Qed.

Lemma sorted_by_fmap {A B} (g : A -> B) (key : B -> Z) (l : list A) :
  g <$> sorted_by (fun a => key (g a)) l = sorted_by key (g <$> l).
Proof.
  induction l as [|x l IH]; [done|].
  rewrite fmap_cons. cbn [sorted_by]. by rewrite insert_by_fmap, IH.
Qed.

(** ** C1: classification orders by the fixed priority of the category *)










(** ** What the context services do to the world *)

Lemma retrieve_context_run {RT : Runtime} (session_id : UUID) (w : World) :
  ContextRetriever.retrieve_context session_id w =
  match conversations w !! uuid_str session_id with
  | None => (inr None, w)
  | Some conversation =>
    match pydantic_optional_uuid (blob_recommendation_id conversation) with
    | inl e => (inl e, w)
    | inr recommendation_id =>
      (inr (Some (Context.mk (entropy w (uuid_draws w)) session_id recommendation_id
                    (stored_requirements w session_id)
                    (Some (stored_summary w session_id)) None
                    (Conversation.last_accessed_at conversation))),
       drawn w)
    end
  end.
Proof.
  unfold ContextRetriever.retrieve_context, mbind, M_bind,
    ConversationRepository.get_by_session_id.
  destruct (conversations w !! uuid_str session_id) as [conversation|]; [|done].
  unfold MessageRepository.get_by_session_id,
    UserRequirementRepository.get_by_session_id, lift.
  fold (blob_recommendation_id conversation).
  destruct (pydantic_optional_uuid (blob_recommendation_id conversation)); done.
Qed.

Lemma drawn_tables (w : World) :
  conversations (drawn w) = conversations w
  /\ messages (drawn w) = messages w
  /\ user_requirements (drawn w) = user_requirements w
  /\ clock (drawn w) = clock w.
Proof. done. Qed.





(** ** C2: the merge keys duplicates on the value alone *)







(** ** C3: a failing handler fails its own intent only *)

Section fold_insert.
Context {E K V : Type} `{Countable K} (f : E -> K) (g : E -> V).

Lemma insert_all_other (es : list E) (m : gmap K V) (k : K) :
  k ∉ f <$> es -> insert_all f g m es !! k = m !! k.
Proof.
  revert m. induction es as [|e es IH]; intros m Hk; simpl; [done|].
  rewrite fmap_cons, not_elem_of_cons in Hk. destruct Hk as [Hne Hk].
  unfold insert_all in *. simpl. rewrite IH by done. by rewrite lookup_insert_ne.
Qed.


Lemma insert_all_is_Some (es : list E) (m : gmap K V) (k : K) :
  is_Some (insert_all f g m es !! k) <-> k ∈ f <$> es \/ is_Some (m !! k).
Proof.
  revert m. induction es as [|e es IH]; intros m.
  - simpl. rewrite elem_of_nil. tauto.
  - unfold insert_all in *. cbn [foldl]. rewrite IH, fmap_cons, elem_of_cons.
    destruct (decide (k = f e)) as [->|Hne].
    + rewrite lookup_insert_eq. split; [intros _; by left; left|by eauto].
    + rewrite lookup_insert_ne by done. tauto.
Qed.
End fold_insert.

Section fold_update.
Context {E V : Type} (h : E -> nat) (g : E -> V).



End fold_update.

Section process_intents_facts.
Context {C : Type} (handler : Intent.t -> UUID -> C -> result dict).
Context (session_id : UUID) (context : C).

Lemma process_one_step (results : gmap key dict) (store : list Intent.t)
    (entry : nat * Intent.t) :
  IntentOrchestrator.process_one handler session_id context (results, store) entry
  = (<[result_key entry := final_result handler session_id context entry.2]> results,
     <[entry.1 := final_intent handler session_id context entry.2]> store).
Proof.
  destruct entry as [k i].
  unfold IntentOrchestrator.process_one, final_result, final_intent, result_key.
  simpl. destruct (handler _ _ _); by destruct i.
Qed.

Lemma process_fold (es : list (nat * Intent.t)) (results : gmap key dict)
    (store : list Intent.t) :
  foldl (IntentOrchestrator.process_one handler session_id context) (results, store) es
  = (insert_all result_key (fun e => final_result handler session_id context e.2) results es,
     update_all fst (fun e => final_intent handler session_id context e.2) store es).
Proof.
  revert results store. induction es as [|e es IH]; intros results store; [done|].
  cbn [foldl]. rewrite process_one_step. apply IH.
Qed.

Lemma process_intents_run (intents : list Intent.t) :
  IntentOrchestrator.process_intents handler intents session_id context
  = (insert_all result_key (fun e => final_result handler session_id context e.2) ∅ (visit_order intents),
     update_all fst (fun e => final_intent handler session_id context e.2) intents (visit_order intents)).
Proof. unfold IntentOrchestrator.process_intents. cbv zeta. apply process_fold. Qed.



Lemma visit_order_keys (intents : list Intent.t) :
  result_key <$> visit_order intents ≡ₚ KUuid <$> (Intent.intent_id <$> intents).
Proof.
  unfold visit_order. rewrite sorted_by_perm, fmap_imap, <- list_fmap_compose.
  clear. generalize 0%nat. induction intents as [|i intents IH]; intros n; [done|].
  simpl. f_equal. rewrite <- (IH (S n)). done.
Qed.
End process_intents_facts.

(** The loop visits the intents in the order of
    [IntentProcessor.sort_by_priority]. *)
Lemma visit_order_sort_by_priority (intents : list Intent.t) :
  snd <$> visit_order intents = IntentProcessor.sort_by_priority intents.
Proof.
  unfold visit_order, IntentProcessor.sort_by_priority.
  rewrite (sorted_by_fmap snd Intent.priority). f_equal.
  rewrite fmap_imap, (imap_ext _ (const id)) by done.
  rewrite imap_const. apply list_fmap_id.
Qed.

#[global] Instance KUuid_inj : Inj (=) (=) KUuid.
Proof. by intros ?? [= ->]. Qed.





(** ** C4: the expiry boundary of [validate_session] *)

Lemma validate_session_run (session_id : UUID) (w : World) :
  SessionManager.validate_session session_id w
  = (inr (match conversations w !! uuid_str session_id with
          | None => false
          | Some conversation => negb (Conversation.expires_at conversation <? clock w)
          end), w).
Proof.
  unfold SessionManager.validate_session, mbind, M_bind,
    ConversationRepository.get_by_session_id.
  destruct (conversations w !! uuid_str session_id) as [conversation|]; [|done].
  simpl. by destruct (Conversation.expires_at conversation <? clock w).
Qed.

(** C4, as stated, fails: at [expiry = now] the session is not treated as
    expired, [validate_session] returns true. *)
Lemma validate_session_at_expiry_counterexample :
  conversations example_world_at_expiry !! uuid_str example_session
  = Some example_conversation
  /\ Conversation.expires_at example_conversation = clock example_world_at_expiry
  /\ (SessionManager.validate_session example_session example_world_at_expiry).1
     = inr true.
Proof. vm_compute. done. Qed.

(** C4, amended. [validate_session] returns, leaves the world as it was, and
    answers true exactly when the session exists and its expiry is not
    before the current time ([now <= expiry]): a session whose expiry equals
    the current time is still valid, so is a session one second before its
    expiry; one second after its expiry it is invalid. *)
Theorem validate_session_until_expiry :
  (forall (session_id : UUID) (w : World),
      exists valid : bool,
        SessionManager.validate_session session_id w = (inr valid, w)
        /\ (valid = true <->
            exists conversation,
              conversations w !! uuid_str session_id = Some conversation
              /\ clock w <= Conversation.expires_at conversation))
  /\ (forall (session_id : UUID) (w : World) (conversation : Conversation.t),
         conversations w !! uuid_str session_id = Some conversation ->
         (clock w = Conversation.expires_at conversation ->
          SessionManager.validate_session session_id w = (inr true, w))
         /\ (clock w = Conversation.expires_at conversation - second ->
             SessionManager.validate_session session_id w = (inr true, w))
         /\ (clock w = Conversation.expires_at conversation + second ->
             SessionManager.validate_session session_id w = (inr false, w))).
Proof.
  split.
  - intros session_id w. eexists. split; [apply validate_session_run|].
    destruct (conversations w !! uuid_str session_id) as [conversation|].
    + destruct (Z.ltb_spec (Conversation.expires_at conversation) (clock w)); simpl.
      * split; [done|]. intros (c & [= <-] & ?). lia.
      * split; [|done]. intros _. exists conversation. split; [done|lia].
    + split; [done|]. by intros (c & ? & _).
  - intros session_id w conversation Hconv.
    rewrite validate_session_run, Hconv. unfold second.
    repeat split; intros Hnow; do 2 f_equal.
    + apply negb_true_iff, Z.ltb_ge. lia.
    + apply negb_true_iff, Z.ltb_ge. lia.
    + apply negb_false_iff, Z.ltb_lt. lia.
Qed.

Lemma validate_session_until_expiry_witness :
  SessionManager.validate_session example_session example_world_at_expiry
  = (inr true, example_world_at_expiry)
  /\ SessionManager.validate_session example_session
       (with_clock (Conversation.expires_at example_conversation + second)
                   example_session_world)
     = (inr false,
        with_clock (Conversation.expires_at example_conversation + second)
                   example_session_world).
Proof.
  split.
  - refine (proj1 (proj2 validate_session_until_expiry example_session
                     example_world_at_expiry example_conversation _) _).
    + vm_compute. reflexivity.
    + vm_compute. reflexivity.
  - refine (proj2 (proj2 (proj2 validate_session_until_expiry example_session
                            _ example_conversation _)) _).
    + vm_compute. reflexivity.
    + vm_compute. reflexivity.
Defined.

(** ** C5: a failed classification call ends the turn *)






(** ** C6: the alignment map has the six pillars, no more, no fewer *)









(** ** C7 and C10: what a second call sees of the first *)



(** The world in which a later call runs: the clock has moved. *)
Lemma stored_requirements_later (w : World) (t : gmap pystr Conversation.t) (now : Z)
    (session_id : UUID) :
  stored_requirements (with_clock now (with_conversations t (drawn w))) session_id
  = stored_requirements w session_id.
Proof. reflexivity. Qed.



Lemma merge_loop_filter (existing : gset pystr)
    (acc new_requirements : list UserRequirement.t) :
  foldl (fun extracted req =>
           if bool_decide (UserRequirement.requirement_value req ∉ existing)
           then extracted ++ [req] else extracted) acc new_requirements
  = acc ++ filter (fun req => UserRequirement.requirement_value req ∉ existing)
             new_requirements.
Proof.
  revert acc. induction new_requirements as [|r rs IH]; intros acc.
  - simpl. by rewrite app_nil_r.
  - cbn [foldl]. rewrite IH.
    destruct (decide (UserRequirement.requirement_value r ∉ existing)) as [Hr|Hr].
    + rewrite bool_decide_eq_true_2, filter_cons_True by done.
      by rewrite <- app_assoc.
    + by rewrite bool_decide_eq_false_2, filter_cons_False by done.
Qed.

Lemma updater_merge_filter (prior new_requirements : list UserRequirement.t) :
  ContextUpdater.merge prior new_requirements
  = prior ++ filter (fun req =>
                       UserRequirement.requirement_value req
                       ∉ UserRequirement.requirement_value <$> prior)
               new_requirements.
Proof.
  unfold ContextUpdater.merge. cbv zeta. rewrite merge_loop_filter. f_equal.
  apply list_filter_iff. intros r. by rewrite elem_of_list_to_set.
Qed.









(** ** C8: the conversation summary and its cap *)

Lemma omap_content (n : nat) (messages : list Message.t) :
  omap (fun msg => take 100 <$> content_attr msg) (take n (OMessage <$> messages))
  = (fun m => take 100 (Message.content m)) <$> take n messages.
Proof.
  revert n. induction messages as [|m messages IH]; intros [|n]; try done.
  simpl. by rewrite IH.
Qed.

Lemma summary_cap (summary : pystr) :
  (length (if (500 <? length summary)%nat then take 497 summary ++ u "..."
           else summary) <= 500)%nat.
Proof.
  destruct (Nat.ltb_spec 500 (length summary)) as [Hlong|Hshort]; [|done].
  change (u "...") with [46; 46; 46]%N.
  rewrite length_app, length_take. cbn [length]. lia.
Qed.

(** C8. For a list of messages the summary is the join, with [" | "], of the
    first 100 characters of each of the first 5 messages when that text has
    at most 500 characters, and otherwise its first 497 characters followed
    by ["..."], 500 characters in all; no summary, of any list, is longer
    than 500 characters, and the summary of the empty list is empty. *)
Theorem conversation_summary_is_capped :
  (forall messages : list Message.t,
      let joined :=
        join (u " | ") ((fun m => take 100 (Message.content m)) <$> take 5 messages) in
      ContextRetriever._summarize_conversation (OMessage <$> messages)
      = (if decide (length joined <= 500)%nat then joined
         else take 497 joined ++ u "...")
      /\ ((500 < length joined)%nat ->
          length (ContextRetriever._summarize_conversation (OMessage <$> messages))
          = 500%nat))
  /\ (forall messages : list pyobj,
         (length (ContextRetriever._summarize_conversation messages) <= 500)%nat)
  /\ ContextRetriever._summarize_conversation [] = [].
Proof.
  split; [|split; [|done]].
  - intros messages joined.
    assert (Hsum :
      ContextRetriever._summarize_conversation (OMessage <$> messages)
      = if (500 <? length joined)%nat then take 497 joined ++ u "..." else joined).
    { destruct messages as [|m messages]; [done|].
      unfold ContextRetriever._summarize_conversation.
      change (OMessage <$> m :: messages)
        with (OMessage m :: (OMessage <$> messages)).
      cbv zeta. rewrite <- (fmap_cons OMessage), omap_content. done. }
    rewrite Hsum. clearbody joined.
    destruct (Nat.ltb_spec 500 (length joined)) as [Hlong|Hshort].
    + rewrite decide_False by lia. split; [done|]. intros _.
      change (u "...") with [46; 46; 46]%N.
      rewrite length_app, length_take. cbn [length]. lia.
    + rewrite decide_True by lia. split; [done|]. lia.
  - intros messages. unfold ContextRetriever._summarize_conversation.
    destruct messages as [|msg messages]; [simpl; lia|]. apply summary_cap.
Qed.

Lemma conversation_summary_is_capped_witness :
  length (ContextRetriever._summarize_conversation (OMessage <$> example_long_messages))
  = 500%nat
  /\ ContextRetriever._summarize_conversation (OMessage <$> example_long_messages)
     = take 497 (join (u " | ") (replicate 5 (replicate 100 97%N))) ++ u "...".
Proof.
  pose proof (proj1 conversation_summary_is_capped example_long_messages) as H.
  cbv zeta in H. destruct H as [Heq Hlen]. split.
  - apply Hlen. vm_compute. lia.
  - rewrite Heq. vm_compute. reflexivity.
Defined.

(** ** C9: the result mapping is keyed by UUID objects, the readers look up
       strings *)

Section uuid_keys.
Context {C : Type} (handler : Intent.t -> UUID -> C -> result dict).
Context (session_id : UUID) (context : C).

Lemma process_intents_no_str_key (intents : list Intent.t) (s : pystr) :
  (IntentOrchestrator.process_intents handler intents session_id context).1 !! KStr s
  = None.
Proof.
  rewrite process_intents_run. simpl.
  rewrite insert_all_other; [apply lookup_empty|].
  intros Hin. apply list_elem_of_fmap in Hin as (e & He & _). discriminate.
Qed.

Lemma process_intents_dom (intents : list Intent.t) :
  dom (IntentOrchestrator.process_intents handler intents session_id context).1
  = list_to_set (KUuid <$> (Intent.intent_id <$> intents)).
Proof.
  apply set_eq. intros k.
  rewrite elem_of_dom, process_intents_run. simpl.
  rewrite insert_all_is_Some, lookup_empty, elem_of_list_to_set, visit_order_keys.
  split; [intros [Hk|Hk]; [done|by apply is_Some_None in Hk]|by left].
Qed.
End uuid_keys.

Section no_string_key.
Context (intent_results : gmap key dict).
Hypothesis no_str : forall s, intent_results !! KStr s = None.

Lemma aggregate_loop_no_str (a : IntentResultAggregator.acc) (intents : list Intent.t) :
  IntentResultAggregator.aggregate_loop intent_results a intents = inr a.
Proof.
  induction intents as [|intent intents IH]; [done|].
  simpl. unfold IntentResultAggregator.aggregate_one. cbv zeta.
  rewrite no_str. simpl. apply IH.
Qed.

Lemma pricing_sections_no_str {RT : Runtime} (intents : list Intent.t) :
  MultiIntentResponseFormatter.pricing_sections intent_results intents = inr [].
Proof.
  induction intents as [|intent intents IH]; [done|].
  simpl. unfold MultiIntentResponseFormatter.pricing_section. cbv zeta.
  rewrite no_str. simpl. by rewrite IH.
Qed.

Lemma clarification_sections_no_str (intents : list Intent.t) :
  intents ≫= MultiIntentResponseFormatter.clarification_section intent_results = [].
Proof.
  induction intents as [|intent intents IH]; [done|].
  rewrite bind_cons, IH.
  unfold MultiIntentResponseFormatter.clarification_section. cbv zeta.
  by rewrite no_str.
Qed.

Lemma format_response_no_str {RT : Runtime} (intents : list Intent.t)
    (recommendation : option ArchitectureRecommendation.t) :
  MultiIntentResponseFormatter.format_response intents intent_results recommendation
  = match
      filter (fun i => IntentType_value (Intent.intent_type i)
                       ∈ [u "architecture_request"; u "modification"]) intents,
      recommendation
    with
    | _ :: _, Some r =>
      texts ← join_values (MultiIntentResponseFormatter.architecture_section r);
      mret (join nl texts)
    | _, _ => inr (u "已处理您的请求。")
    end.
Proof.
  unfold MultiIntentResponseFormatter.format_response. cbv zeta.
  rewrite pricing_sections_no_str, clarification_sections_no_str. simpl.
  rewrite !app_nil_r.
  destruct (filter _ intents) as [|i l]; [done|].
  destruct recommendation as [r|]; [|done]. done.
Qed.
End no_string_key.

(** C9. Every key of the mapping that [process_intents] returns is a UUID
    object, the id of one of the intents; no string is a key. So
    [aggregate_results], which looks each intent up under the string form of
    its id, finds none in that mapping and returns empty content parts,
    recommendations, pricing, metadata and content; and [format_response],
    which looks up the same strings, formats what it formats for the empty
    mapping. *)
Theorem uuid_keyed_results_match_no_intent {RT : Runtime} :
  forall (C : Type) (handler : Intent.t -> UUID -> C -> result dict)
         (intents : list Intent.t) (session_id : UUID) (context : C)
         (recommendation : option ArchitectureRecommendation.t),
    let results :=
      (IntentOrchestrator.process_intents handler intents session_id context).1 in
    dom results = list_to_set (KUuid <$> (Intent.intent_id <$> intents))
    /\ (forall i, i ∈ intents ->
                  is_Some (results !! KUuid (Intent.intent_id i))
                  /\ results !! KStr (uuid_str (Intent.intent_id i)) = None)
    /\ IntentResultAggregator.aggregate_results results intents
       = inr (IntentResultAggregator.mk
                (IntentResultAggregator.mk_acc [] [] VNone [] []) [])
    /\ MultiIntentResponseFormatter.format_response intents results recommendation
       = MultiIntentResponseFormatter.format_response intents ∅ recommendation.
Proof.
  intros C handler intents session_id context recommendation results.
  assert (Hno : forall s, results !! KStr s = None)
    by (intros s; apply process_intents_no_str_key).
  assert (Hdom : dom results = list_to_set (KUuid <$> (Intent.intent_id <$> intents)))
    by apply process_intents_dom.
  split; [done|]. split; [|split].
  - intros i Hi. split; [|apply Hno].
    apply elem_of_dom. rewrite Hdom, elem_of_list_to_set.
    apply list_elem_of_fmap. exists (Intent.intent_id i). split; [done|].
    apply list_elem_of_fmap. by exists i.
  - unfold IntentResultAggregator.aggregate_results. cbv zeta.
    by rewrite (aggregate_loop_no_str results Hno).
  - rewrite (format_response_no_str results Hno).
    by rewrite (format_response_no_str ∅ (fun s => lookup_empty (KStr s))).
Qed.

(** * Further properties of the code

    What the functions around the conversation core do: the intent processor, the
    history and session managers, the two formatters, the parsing of a reply,
    the prompts, and the knowledge base with its validator. *)

(** ** The intent processor *)

Section sorted_by_stable.
Context {A : Type} (key : A -> Z).

Lemma insert_by_filter (p : Z) (x : A) (l : list A) :
  filter (fun a => key a = p) (insert_by key x l)
  = filter (fun a => key a = p) (x :: l).
Proof.
  induction l as [|y l IH]; simpl; [done|].
  destruct (Z.leb_spec (key x) (key y)) as [Hxy|Hxy]; [done|].
  rewrite filter_cons, IH, !filter_cons.
  destruct (decide (key y = p)), (decide (key x = p)); try done. lia.
Qed.

Lemma sorted_by_filter (p : Z) (l : list A) :
  filter (fun a => key a = p) (sorted_by key l) = filter (fun a => key a = p) l.
Proof.
  induction l as [|x l IH]; [done|].
  cbn [sorted_by]. by rewrite insert_by_filter, !filter_cons, IH.
Qed.
End sorted_by_stable.

(** X1. [sort_by_priority] is a stable sort: its result is a rearrangement of
    the intents, ascending by priority, in which the intents of one priority
    keep the order they had. *)
Theorem sort_by_priority_is_stable (intents : list Intent.t) :
  IntentProcessor.sort_by_priority intents ≡ₚ intents
  /\ StronglySorted (fun a b => Intent.priority a <= Intent.priority b)
       (IntentProcessor.sort_by_priority intents)
  /\ forall priority : Z,
       filter (fun i => Intent.priority i = priority)
              (IntentProcessor.sort_by_priority intents)
       = filter (fun i => Intent.priority i = priority) intents.
Proof.
  unfold IntentProcessor.sort_by_priority. split; [apply sorted_by_perm|]. split.
  - apply (sorted_by_sorted Intent.priority).
  - intros p. apply sorted_by_filter.
Qed.

Section odict_facts.
Context {K V : Type} `{EqDecision K}.

Lemma odict_lookup_set_eq (d : list (K * V)) (k : K) (v : V) :
  odict_lookup (odict_set d k v) k = Some v.
Proof.
  induction d as [|[k' v'] d IH]; simpl.
  - by rewrite decide_True.
  - destruct (decide (k' = k)) as [->|Hne]; simpl.
    + by rewrite decide_True.
    + by rewrite decide_False.
Qed.

Lemma odict_lookup_set_ne (d : list (K * V)) (k k' : K) (v : V) :
  k <> k' -> odict_lookup (odict_set d k v) k' = odict_lookup d k'.
Proof.
  intros Hne. induction d as [|[k0 v0] d IH]; simpl.
  - by rewrite decide_False.
  - destruct (decide (k0 = k)) as [->|Hne0]; simpl.
    + by rewrite !decide_False.
    + by rewrite IH.
Qed.

Lemma odict_set_keys (d : list (K * V)) (k : K) (v : V) :
  (odict_set d k v).*1
  = if bool_decide (k ∈ d.*1) then d.*1 else d.*1 ++ [k].
Proof.
  induction d as [|[k0 v0] d IH]; [done|]. csimpl.
  destruct (decide (k0 = k)) as [->|Hne]; csimpl.
  - rewrite bool_decide_eq_true_2; [done|]. apply list_elem_of_here.
  - rewrite IH. case_bool_decide as Hin.
    + rewrite bool_decide_eq_true_2; [done|]. by apply list_elem_of_further.
    + rewrite bool_decide_eq_false_2; [done|].
      intros [->|?]%elem_of_cons; done.
Qed.

Lemma odict_set_keys_NoDup (d : list (K * V)) (k : K) (v : V) :
  NoDup d.*1 -> NoDup (odict_set d k v).*1.
Proof.
  intros Hd. rewrite odict_set_keys. case_bool_decide as Hin; [done|].
  apply NoDup_app. split; [done|]. split; [|apply NoDup_singleton].
  intros x Hx ->%list_elem_of_singleton. done.
Qed.
End odict_facts.

Lemma add_to_group_lookup (groups : list (Z * list Intent.t)) (intent : Intent.t)
    (p : Z) :
  odict_lookup (IntentProcessor.add_to_group groups intent) p
  = if decide (Intent.priority intent = p)
    then Some (default [] (odict_lookup groups p) ++ [intent])
    else odict_lookup groups p.
Proof.
  unfold IntentProcessor.add_to_group. cbv zeta.
  case_bool_decide as Hnew.
  - rewrite odict_lookup_set_eq.
    destruct (decide (Intent.priority intent = p)) as [<-|Hne].
    + by rewrite odict_lookup_set_eq, Hnew.
    + by rewrite !odict_lookup_set_ne by done.
  - destruct (odict_lookup groups (Intent.priority intent)) as [group|] eqn:Hg; [|done].
    destruct (decide (Intent.priority intent = p)) as [<-|Hne].
    + by rewrite odict_lookup_set_eq, Hg.
    + by rewrite odict_lookup_set_ne by done.
Qed.

Lemma add_to_group_keys (groups : list (Z * list Intent.t)) (intent : Intent.t) :
  NoDup groups.*1 -> NoDup (IntentProcessor.add_to_group groups intent).*1.
Proof.
  intros Hd. unfold IntentProcessor.add_to_group. cbv zeta.
  case_bool_decide as Hnew.
  - rewrite odict_lookup_set_eq. by do 2 apply odict_set_keys_NoDup.
  - destruct (odict_lookup groups (Intent.priority intent)); [|done].
    by apply odict_set_keys_NoDup.
Qed.

Lemma groups_fold_lookup (intents : list Intent.t) (groups : list (Z * list Intent.t))
    (p : Z) :
  odict_lookup (foldl IntentProcessor.add_to_group groups intents) p
  = match odict_lookup groups p, filter (fun i => Intent.priority i = p) intents with
    | None, [] => None
    | group, added => Some (default [] group ++ added)
    end.
Proof.
  revert groups. induction intents as [|i intents IH]; intros groups.
  - simpl. destruct (odict_lookup groups p); [|done]. by rewrite app_nil_r.
  - cbn [foldl]. rewrite IH, add_to_group_lookup, filter_cons.
    destruct (decide (Intent.priority i = p)) as [Hp|Hp]; [|done].
    destruct (odict_lookup groups p) as [group|],
      (filter (fun i => Intent.priority i = p) intents) as [|j added];
      simpl; by rewrite <- ?app_assoc.
Qed.

Lemma groups_fold_keys (intents : list Intent.t) (groups : list (Z * list Intent.t)) :
  NoDup groups.*1 -> NoDup (foldl IntentProcessor.add_to_group groups intents).*1.
Proof.
  revert groups. induction intents as [|i intents IH]; intros groups Hd; [done|].
  cbn [foldl]. by apply IH, add_to_group_keys.
Qed.

(** X2. The dict of [get_priority_groups] has one key for each priority that
    occurs, and no other; the group of a priority is the run of that priority
    in the list that [sort_by_priority] returns: the intents of that
    priority in their original order. *)
Theorem priority_groups_are_runs_of_sorted (intents : list Intent.t) :
  NoDup (IntentProcessor.get_priority_groups intents).*1
  /\ forall priority : Z,
       odict_lookup (IntentProcessor.get_priority_groups intents) priority
       = match filter (fun i => Intent.priority i = priority)
                      (IntentProcessor.sort_by_priority intents) with
         | [] => None
         | i :: group => Some (i :: group)
         end.
Proof.
  split.
  - apply groups_fold_keys. constructor.
  - intros p. unfold IntentProcessor.get_priority_groups, IntentProcessor.sort_by_priority.
    rewrite groups_fold_lookup, sorted_by_filter. simpl.
    by destruct (filter _ intents).
Qed.

Lemma architecture_value_iff (ty : IntentType) :
  IntentType_value ty ∈ [u "architecture_request"; u "modification"]
  <-> ty ∈ [ARCHITECTURE_REQUEST; MODIFICATION].
Proof.
  rewrite !elem_of_cons, !elem_of_nil.
  destruct ty; vm_compute; split; intros [H|[H|[]]]; try discriminate H; auto.
Qed.

Lemma no_architecture_request (intents : list Intent.t) :
  IntentProcessor.has_architecture_request intents = false ->
  filter (fun i => IntentType_value (Intent.intent_type i)
                   ∈ [u "architecture_request"; u "modification"]) intents = [].
Proof.
  induction intents as [|i intents IH]; [done|].
  unfold IntentProcessor.has_architecture_request. cbn [existsb].
  intros [Hi Hrest]%orb_false_iff.
  rewrite filter_cons_False; [by apply IH|].
  rewrite architecture_value_iff. by apply bool_decide_eq_false in Hi.
Qed.

(** X3. When [has_architecture_request] answers false, [filter_by_type] finds
    neither an architecture request nor a modification, and
    [format_response] formats what it formats without a recommendation: the
    recommendation passed to it is not rendered. *)
Theorem recommendation_needs_an_architecture_intent {RT : Runtime}
    (intents : list Intent.t) (intent_results : gmap key dict)
    (recommendation : option ArchitectureRecommendation.t) :
  IntentProcessor.has_architecture_request intents = false ->
  IntentProcessor.filter_by_type intents ARCHITECTURE_REQUEST = []
  /\ IntentProcessor.filter_by_type intents MODIFICATION = []
  /\ MultiIntentResponseFormatter.format_response intents intent_results recommendation
     = MultiIntentResponseFormatter.format_response intents intent_results None.
Proof.
  intros Hno. split; [|split].
  - unfold IntentProcessor.filter_by_type.
    induction intents as [|i intents IH]; [done|].
    unfold IntentProcessor.has_architecture_request in Hno. cbn [existsb] in Hno.
    apply orb_false_iff in Hno as [Hi Hrest]. apply bool_decide_eq_false in Hi.
    rewrite filter_cons_False; [by apply IH|]. intros Hty. apply Hi. rewrite Hty.
    apply list_elem_of_here.
  - unfold IntentProcessor.filter_by_type.
    induction intents as [|i intents IH]; [done|].
    unfold IntentProcessor.has_architecture_request in Hno. cbn [existsb] in Hno.
    apply orb_false_iff in Hno as [Hi Hrest]. apply bool_decide_eq_false in Hi.
    rewrite filter_cons_False; [by apply IH|]. intros Hty. apply Hi. rewrite Hty.
    apply list_elem_of_further, list_elem_of_here.
  - unfold MultiIntentResponseFormatter.format_response. cbv zeta.
    by rewrite (no_architecture_request intents Hno).
Qed.

Lemma recommendation_needs_an_architecture_intent_witness :
  @MultiIntentResponseFormatter.format_response example_runtime [example_pricing] ∅
    (Some example_recommendation)
  = @MultiIntentResponseFormatter.format_response example_runtime [example_pricing] ∅
      None.
Proof.
  exact (proj2 (proj2 (@recommendation_needs_an_architecture_intent example_runtime
                         [example_pricing] ∅ (Some example_recommendation) eq_refl))).
Defined.

(** ** The agent state and the history manager *)

Lemma slice_from_suffix {A} (start : Z) (l : list A) :
  exists older, l = older ++ slice_from start l.
Proof.
  unfold slice_from. destruct (start <? 0); eexists; symmetry; apply take_drop.
Qed.

(** X4. For a limit that is not negative, [get_recent_context] returns a suffix
    of the history: its last [limit] entries, as many as there are, when the
    limit is positive, and the whole history when the limit is 0. After
    [add_message], the most recent entry is the role and content of that
    message. *)
Theorem agent_state_recent_context (s : AgentState.t) (message : Message.t)
    (limit : Z) :
  0 <= limit ->
  (exists older,
      AgentState.conversation_history s
      = older ++ AgentState.get_recent_context limit s)
  /\ length (AgentState.get_recent_context limit s)
     = (if limit =? 0 then length (AgentState.conversation_history s)
        else Nat.min (Z.to_nat limit) (length (AgentState.conversation_history s)))
  /\ AgentState.get_recent_context 1 (AgentState.add_message message s)
     = [AgentState.history_entry message].
Proof.
  intros Hlimit. split; [apply slice_from_suffix|]. split.
  - unfold AgentState.get_recent_context, slice_from.
    destruct (Z.eqb_spec limit 0) as [->|Hne]; [done|].
    destruct (Z.ltb_spec (- limit) 0); [|lia].
    rewrite length_drop. lia.
  - unfold AgentState.get_recent_context, slice_from. simpl.
    rewrite length_app. simpl.
    replace (Z.to_nat _) with (length (AgentState.conversation_history s)) by lia.
    by rewrite drop_app_length.
Qed.

Lemma agent_state_recent_context_witness :
  length (AgentState.get_recent_context 0 example_history_state) = 2%nat
  /\ AgentState.get_recent_context 1
       (AgentState.add_message example_user_message example_history_state)
     = [AgentState.history_entry example_user_message].
Proof.
  destruct (agent_state_recent_context example_history_state example_user_message 0
              ltac:(lia)) as (_ & Hlen & Hlast).
  split; [exact Hlen|exact Hlast].
Defined.


Lemma map_result_inl {A B} (f : A -> result B) (l : list A) (x : A) (e : exn) :
  x ∈ l -> f x = inl e -> exists e', map_result f l = inl e'.
Proof.
  intros Hin Hx. induction l as [|a l IH]; [by apply elem_of_nil in Hin|].
  cbn [map_result]. destruct (f a) as [e0|b] eqn:Ha; [by eexists|].
  apply elem_of_cons in Hin as [->|Hin]; [congruence|].
  destruct (IH Hin) as [e' ->]. by eexists.
Qed.


(** X6. [estimate_tokens] and [should_summarize] raise as soon as one of the
    messages is not a dict. *)
Theorem estimate_tokens_rejects_other_messages (messages : list value) (msg : value)
    (max_tokens : Z) :
  msg ∈ messages ->
  (forall d, msg <> VDict d) ->
  exists e,
    HistoryManager.estimate_tokens messages = inl e
    /\ HistoryManager.should_summarize messages max_tokens = inl e.
Proof.
  intros Hin Hmsg.
  assert (exists e, HistoryManager.content_length msg = inl e) as [e He].
  { destruct msg; try (by eexists). by destruct (Hmsg d). }
  destruct (map_result_inl _ _ _ _ Hin He) as [e' He'].
  exists e'. unfold HistoryManager.should_summarize, HistoryManager.estimate_tokens.
  by rewrite He'.
Qed.

Lemma estimate_tokens_rejects_other_messages_witness :
  exists e,
    HistoryManager.estimate_tokens
      [AgentState.history_entry example_user_message; VStr (u "hello")] = inl e
    /\ HistoryManager.should_summarize
         [AgentState.history_entry example_user_message; VStr (u "hello")] 4000
       = inl e.
Proof.
  apply (estimate_tokens_rejects_other_messages _ (VStr (u "hello")) 4000).
  - apply list_elem_of_further, list_elem_of_here.
  - intros d. discriminate.
Defined.

(** ** Sessions *)



(** X8. [get_session_remaining_days] returns the time left, in whole days
    rounded down, and 0 once the session has expired: it returns 0 exactly
    when less than a day is left, for a session that is still valid too.
    The two readings of the clock in the call are taken at one instant,
    [clock w]. *)
Theorem remaining_days_round_down (conversation : Conversation.t) (w : World) :
  exists days,
    SessionManager.get_session_remaining_days conversation w = (inr days, w)
    /\ days
       = Z.max 0 (Conversation.expires_at conversation - clock w) / (86400 * second)
    /\ (days = 0
        <-> Conversation.expires_at conversation - clock w < 86400 * second).
Proof.
  unfold SessionManager.get_session_remaining_days, SessionManager.is_session_expired,
    SessionManager.timedelta_days, mbind, M_bind, utcnow, second. simpl.
  destruct (Z.ltb_spec (Conversation.expires_at conversation) (clock w)) as [Hlt|Hge].
  - exists 0. split; [done|]. rewrite Z.max_l by lia. split; [done|]. lia.
  - eexists. split; [reflexivity|]. rewrite Z.max_r by lia. split; [done|].
    set (left := Conversation.expires_at conversation - clock w) in *.
    change (86400 * 1000000) with 86400000000.
    pose proof (Z.div_mod left 86400000000 ltac:(lia)).
    pose proof (Z.mod_pos_bound left 86400000000 ltac:(lia)).
    split; intros; [lia|]. apply Z.div_small. lia.
Qed.

(** X9. When [restore_context] returns a context, the session exists and has
    not expired; the dict holds the session id, the requirements of the
    Requirement Store, the summary of the stored messages and no last
    intents; the conversation table is as it was. *)
Theorem restore_context_reads_the_stores {RT : Runtime} (session_id : UUID)
    (w w' : World) (restored : dict) :
  SessionManager.restore_context session_id w = (inr (Some restored), w') ->
  (exists conversation,
      conversations w !! uuid_str session_id = Some conversation
      /\ clock w <= Conversation.expires_at conversation)
  /\ dict_lookup restored (u "session_id") = Some (VStr (uuid_str session_id))
  /\ dict_lookup restored (u "extracted_requirements")
     = Some (VList ((fun r => VDict (UserRequirement_model_dump r))
                      <$> stored_requirements w session_id))
  /\ dict_lookup restored (u "conversation_summary")
     = Some (VStr (stored_summary w session_id))
  /\ dict_lookup restored (u "last_intents") = Some VNone
  /\ conversations w' = conversations w.
Proof.
  unfold SessionManager.restore_context.
  rewrite (bind_M_step _ _ _ _ _ (validate_session_run session_id w)).
  destruct (conversations w !! uuid_str session_id) as [conversation|] eqn:Hconv;
    [|discriminate].
  destruct (Z.ltb_spec (Conversation.expires_at conversation) (clock w)) as [Hlt|Hge];
    [discriminate|].
  simpl. unfold mbind, M_bind. rewrite retrieve_context_run, Hconv.
  destruct (pydantic_optional_uuid (blob_recommendation_id conversation));
    [discriminate|].
  intros [= <- <-]. split; [by exists conversation|]. by repeat split.
Qed.

Lemma example_restore :
  exists restored,
    @SessionManager.restore_context example_runtime example_session example_session_world
    = (inr (Some restored),
       (@SessionManager.restore_context example_runtime example_session
          example_session_world).2).
Proof. vm_compute. eexists. reflexivity. Qed.

Lemma restore_context_reads_the_stores_witness :
  exists restored,
    (@SessionManager.restore_context example_runtime example_session
       example_session_world).1 = inr (Some restored)
    /\ dict_lookup restored (u "extracted_requirements")
       = Some (VList [VDict (@UserRequirement_model_dump example_runtime example_prior)])
    /\ dict_lookup restored (u "last_intents") = Some VNone.
Proof.
  destruct example_restore as [restored Hrun].
  exists restored. split; [by rewrite Hrun|].
  destruct (@restore_context_reads_the_stores example_runtime example_session
              example_session_world _ restored Hrun)
    as (_ & _ & Hreqs & _ & Hintents & _).
  split; [exact Hreqs|exact Hintents].
Defined.

(** ** What an update leaves to read *)

(** X10. Both merges, of [extract_requirements] and of [update_context],
    are the same function: the prior list, followed by the new requirements
    whose value no prior requirement has. The new requirements are not
    compared with each other: two of them with the same novel value are both
    appended. *)
Theorem merges_append_every_novel_requirement
    (prior new_requirements : list UserRequirement.t) :
  RequirementExtractor.merge prior new_requirements
  = prior ++ filter (fun req =>
                       UserRequirement.requirement_value req
                       ∉ UserRequirement.requirement_value <$> prior)
               new_requirements
  /\ ContextUpdater.merge prior new_requirements
     = RequirementExtractor.merge prior new_requirements
  /\ forall r1 r2 : UserRequirement.t,
       UserRequirement.requirement_value r1
       ∉ UserRequirement.requirement_value <$> prior ->
       UserRequirement.requirement_value r2 = UserRequirement.requirement_value r1 ->
       RequirementExtractor.merge prior [r1; r2] = prior ++ [r1; r2].
Proof.
  assert (Hm : forall new,
             RequirementExtractor.merge prior new
             = prior ++ filter (fun req =>
                                  UserRequirement.requirement_value req
                                  ∉ UserRequirement.requirement_value <$> prior) new).
  { intros new. exact (updater_merge_filter prior new). }
  split; [apply Hm|]. split; [reflexivity|].
  intros r1 r2 Hnovel Hsame. rewrite Hm.
  rewrite filter_cons_True by done.
  rewrite filter_cons_True by (by rewrite Hsame). done.
Qed.

Lemma merges_append_every_novel_requirement_witness :
  RequirementExtractor.merge [example_prior] [example_novel; example_novel]
  = [example_prior; example_novel; example_novel].
Proof.
  apply (proj2 (proj2 (merges_append_every_novel_requirement [example_prior] []))
           example_novel example_novel).
  - apply (bool_decide_unpack _). vm_compute. exact I.
  - reflexivity.
Defined.




(** ** The aggregator and the two formatters *)

Lemma join_values_inl (parts : list value) (c : value) :
  c ∈ parts -> (forall s, c <> VStr s) -> exists e, join_values parts = inl e.
Proof.
  intros Hin Hc. induction parts as [|v parts IH]; [by apply elem_of_nil in Hin|].
  apply elem_of_cons in Hin as [<-|Hin].
  - destruct c; try (by eexists). by destruct (Hc s).
  - destruct (IH Hin) as [e He]. destruct v; try (by eexists).
    simpl. rewrite He. by eexists.
Qed.

Lemma add_metadata_parts (res : dict) (a a' : IntentResultAggregator.acc) :
  IntentResultAggregator.add_metadata res a = inr a' ->
  IntentResultAggregator.content_parts a' = IntentResultAggregator.content_parts a.
Proof.
  unfold IntentResultAggregator.add_metadata.
  destruct (dict_lookup res (u "metadata")) as [m|]; [|by intros [= <-]].
  destruct (py_update _ m) as [e|md]; [discriminate|]. by intros [= <-].
Qed.

Lemma aggregate_one_parts (intent_results : gmap key dict)
    (a a' : IntentResultAggregator.acc) (intent : Intent.t) :
  IntentResultAggregator.aggregate_one intent_results a intent = inr a' ->
  (forall c, c ∈ IntentResultAggregator.content_parts a ->
             c ∈ IntentResultAggregator.content_parts a')
  /\ forall res c,
       intent_results !! KStr (uuid_str (Intent.intent_id intent)) = Some res ->
       truthy (dict_get res (u "success") (VBool false)) = true ->
       dict_lookup res (u "content") = Some c ->
       c ∈ IntentResultAggregator.content_parts a'.
Proof.
  unfold IntentResultAggregator.aggregate_one. cbv zeta.
  destruct (intent_results !! KStr (uuid_str (Intent.intent_id intent))) as [res|];
    [|intros [= <-]; split; [done|]; by intros].
  destruct (truthy (dict_get res (u "success") (VBool false))) eqn:Hs; simpl;
    [|intros [= <-]; split; [done|]; intros ? ? [= <-] ?; congruence].
  intros Hmeta. apply add_metadata_parts in Hmeta. rewrite Hmeta.
  unfold IntentResultAggregator.add_content, IntentResultAggregator.add_recommendation,
    IntentResultAggregator.set_pricing.
  split.
  - intros c Hc.
    destruct (Intent.intent_type intent); simpl;
      destruct (dict_lookup res (u "content")); simpl;
      repeat (match goal with |- context [match ?x with _ => _ end] => destruct x end;
              simpl); rewrite ?elem_of_app; auto.
  - intros res' c [= <-] _ Hcontent. rewrite Hcontent.
    destruct (Intent.intent_type intent); simpl;
      rewrite elem_of_app, list_elem_of_singleton; by right.
Qed.

Lemma aggregate_loop_parts (intent_results : gmap key dict) (intents : list Intent.t)
    (a a' : IntentResultAggregator.acc) :
  IntentResultAggregator.aggregate_loop intent_results a intents = inr a' ->
  (forall c, c ∈ IntentResultAggregator.content_parts a ->
             c ∈ IntentResultAggregator.content_parts a')
  /\ forall intent res c,
       intent ∈ intents ->
       intent_results !! KStr (uuid_str (Intent.intent_id intent)) = Some res ->
       truthy (dict_get res (u "success") (VBool false)) = true ->
       dict_lookup res (u "content") = Some c ->
       c ∈ IntentResultAggregator.content_parts a'.
Proof.
  revert a. induction intents as [|i intents IH]; intros a Hrun.
  - injection Hrun as <-. split; [done|]. intros ? ? ? Hin. by apply elem_of_nil in Hin.
  - cbn [IntentResultAggregator.aggregate_loop] in Hrun.
    apply bind_result_inr in Hrun as (a1 & Hone & Hrest).
    apply aggregate_one_parts in Hone as [Hkeep Hadd].
    apply IH in Hrest as [Hkeep' Hadd'].
    split; [auto|].
    intros intent res c [->|Hin]%elem_of_cons Hres Hs Hc; eauto.
Qed.

(** X12. [aggregate_results] raises when the result of a successful intent
    holds a content that is not a string. *)
Theorem aggregate_results_needs_text_contents (intent_results : gmap key dict)
    (intents : list Intent.t) (intent : Intent.t) (res : dict) (c : value) :
  intent ∈ intents ->
  intent_results !! KStr (uuid_str (Intent.intent_id intent)) = Some res ->
  truthy (dict_get res (u "success") (VBool false)) = true ->
  dict_lookup res (u "content") = Some c ->
  (forall s, c <> VStr s) ->
  exists e, IntentResultAggregator.aggregate_results intent_results intents = inl e.
Proof.
  intros Hin Hres Hs Hc Hnot.
  unfold IntentResultAggregator.aggregate_results. cbv zeta.
  destruct (IntentResultAggregator.aggregate_loop _ _ _) as [e|a] eqn:Hloop;
    [by eexists|].
  apply aggregate_loop_parts in Hloop as [_ Hadd].
  assert (Hpart : c ∈ IntentResultAggregator.content_parts a).
  { apply (Hadd intent res c); try done. by rewrite sorted_by_perm. }
  destruct (join_values_inl _ _ Hpart Hnot) as [e He].
  simpl. rewrite He. by eexists.
Qed.

Lemma aggregate_results_needs_text_contents_witness :
  exists e,
    IntentResultAggregator.aggregate_results
      {[ KStr (uuid_str (UUID_of_int 1000))
         := [ (u "content", VNone); (u "success", VBool true) ] ]}
      example_intents
    = inl e.
Proof.
  apply (aggregate_results_needs_text_contents _ example_intents example_clarification
           [ (u "content", VNone); (u "success", VBool true) ] VNone).
  - do 2 apply list_elem_of_further. apply list_elem_of_here.
  - apply lookup_singleton_eq.
  - reflexivity.
  - reflexivity.
  - intros s. discriminate.
Defined.

(** X13. The two readers of a result mapping treat a failed result
    differently: for a clarification intent whose result has a content and a
    success flag that is not true, [aggregate_results] aggregates nothing,
    while [format_response] renders the content under its heading. *)
Theorem formatter_ignores_the_success_flag {RT : Runtime}
    (intent_results : gmap key dict) (intent : Intent.t) (res : dict) (c : pystr)
    (recommendation : option ArchitectureRecommendation.t) :
  Intent.intent_type intent = CLARIFICATION ->
  intent_results !! KStr (uuid_str (Intent.intent_id intent)) = Some res ->
  dict_lookup res (u "content") = Some (VStr c) ->
  truthy (dict_get res (u "success") (VBool false)) = false ->
  IntentResultAggregator.aggregate_results intent_results [intent]
  = inr (IntentResultAggregator.mk IntentResultAggregator.initial [])
  /\ MultiIntentResponseFormatter.format_response [intent] intent_results recommendation
     = inr ((nl ++ u "## 说明" ++ nl) ++ nl ++ c).
Proof.
  intros Hty Hres Hc Hs. split.
  - unfold IntentResultAggregator.aggregate_results. cbv zeta.
    cbn [sorted_by insert_by IntentResultAggregator.aggregate_loop].
    unfold IntentResultAggregator.aggregate_one. cbv zeta.
    rewrite Hres, Hs. reflexivity.
  - unfold MultiIntentResponseFormatter.format_response. cbv zeta.
    rewrite !filter_cons, !filter_nil. cbv beta. rewrite Hty.
    rewrite decide_False
      by (rewrite !elem_of_cons, elem_of_nil; vm_compute;
          intros [H|[H|[]]]; discriminate H).
    rewrite (decide_False (P := IntentType_value CLARIFICATION = u "pricing_query"))
      by (vm_compute; intros H; discriminate H).
    rewrite decide_True by reflexivity.
    cbn [MultiIntentResponseFormatter.pricing_sections mbind result_bind mret result_ret].
    rewrite bind_cons. change ([] ≫= _) with (@nil value).
    unfold MultiIntentResponseFormatter.clarification_section. cbv zeta.
    rewrite Hres, Hc.
    destruct recommendation; reflexivity.
Qed.

Lemma formatter_ignores_the_success_flag_witness :
  IntentResultAggregator.aggregate_results
    {[ KStr (uuid_str (UUID_of_int 1000))
       := [ (u "content", VStr (u "Which region?")); (u "success", VBool false) ] ]}
    [example_clarification]
  = inr (IntentResultAggregator.mk IntentResultAggregator.initial [])
  /\ @MultiIntentResponseFormatter.format_response example_runtime [example_clarification]
       {[ KStr (uuid_str (UUID_of_int 1000))
          := [ (u "content", VStr (u "Which region?")); (u "success", VBool false) ] ]}
       None
     = inr ((nl ++ u "## 说明" ++ nl) ++ nl ++ u "Which region?").
Proof.
  apply (@formatter_ignores_the_success_flag example_runtime _ example_clarification
           [ (u "content", VStr (u "Which region?")); (u "success", VBool false) ]
           (u "Which region?") None).
  - reflexivity.
  - apply lookup_singleton_eq.
  - reflexivity.
  - reflexivity.
Defined.

(** X14. [format_multi_intent_response] returns the aggregated content
    itself when there is no recommendation and the pricing is absent or
    empty; for the mapping that [process_intents] returns, the aggregation
    followed by this formatter gives the empty text. *)
Theorem multi_intent_response_of_contents {RT : Runtime} :
  (forall aggregated : IntentResultAggregator.t,
      IntentResultAggregator.recommendations (IntentResultAggregator.parts aggregated)
      = [] ->
      truthy (IntentResultAggregator.pricing (IntentResultAggregator.parts aggregated))
      = false ->
      IntentResultAggregator.format_multi_intent_response aggregated
      = inr (IntentResultAggregator.content aggregated))
  /\ forall (C : Type) (handler : Intent.t -> UUID -> C -> result dict)
            (intents : list Intent.t) (session_id : UUID) (context : C),
       IntentResultAggregator.aggregate_results
         (IntentOrchestrator.process_intents handler intents session_id context).1
         intents
       ≫= IntentResultAggregator.format_multi_intent_response
       = inr [].
Proof.
  split.
  - intros [a content] Hrec Hp. unfold IntentResultAggregator.format_multi_intent_response.
    simpl in *. rewrite Hrec, Hp. simpl. rewrite !app_nil_r. by destruct content.
  - intros C handler intents session_id context.
    unfold IntentResultAggregator.aggregate_results. cbv zeta.
    rewrite aggregate_loop_no_str by (intros s; apply process_intents_no_str_key).
    reflexivity.
Qed.

Lemma multi_intent_response_of_contents_witness :
  @IntentResultAggregator.format_multi_intent_response example_runtime
    (IntentResultAggregator.mk
       (IntentResultAggregator.mk_acc [VStr (u "Which region?")] [] VNone [] [])
       (u "Which region?"))
  = inr (u "Which region?").
Proof.
  exact (proj1 (@multi_intent_response_of_contents example_runtime)
           (IntentResultAggregator.mk
              (IntentResultAggregator.mk_acc [VStr (u "Which region?")] [] VNone [] [])
              (u "Which region?")) eq_refl eq_refl).
Defined.

(** ** The code fence of a reply *)

Lemma split_from_cons (sep : pystr) (fuel : nat) (cur s : pystr) :
  exists piece pieces, split_from sep fuel cur s = piece :: pieces.
Proof.
  destruct fuel as [|fuel]; [by eexists _, _|].
  revert fuel cur. induction s as [|c s IH]; intros fuel cur; [by eexists _, _|].
  cbn [split_from]. destruct (startswith sep (c :: s)); [by eexists _, _|].
  destruct fuel as [|fuel]; [by eexists _, _|]. apply IH.
Qed.

Lemma split_from_two (sep : pystr) (fuel : nat) (cur s : pystr) :
  sep <> [] -> contains sep s = true -> (length s < fuel)%nat ->
  exists first second pieces, split_from sep fuel cur s = first :: second :: pieces.
Proof.
  intros Hsep. revert fuel cur. induction s as [|c s IH]; intros fuel cur Hin Hfuel.
  - destruct sep; [done|]. discriminate Hin.
  - destruct fuel as [|fuel]; [simpl in Hfuel; lia|].
    cbn [split_from]. cbn [contains] in Hin.
    destruct (startswith sep (c :: s)).
    + destruct (split_from_cons sep fuel [] (drop (length sep) (c :: s)))
        as (second & pieces & ->). by eexists _, _, _.
    + apply IH; [done|]. simpl in Hfuel. lia.
Qed.

Lemma startswith_app (p q s : pystr) :
  startswith (p ++ q) s = true -> startswith p s = true.
Proof.
  revert s. induction p as [|a p IH]; intros s; [done|].
  destruct s as [|b s]; [done|]. simpl.
  intros [-> Hrest]%andb_true_iff. simpl. by apply IH.
Qed.

Lemma contains_app (p q s : pystr) :
  contains (p ++ q) s = true -> contains p s = true.
Proof.
  induction s as [|c s IH]; cbn [contains].
  - rewrite !orb_false_r. apply startswith_app.
  - intros [H|H]%orb_true_iff; apply orb_true_iff.
    + left. by apply startswith_app in H.
    + right. by apply IH.
Qed.

Lemma py_index_first {A} (a : A) (l : list A) : py_index (a :: l) 0 = inr a.
Proof. reflexivity. Qed.

Lemma py_index_second {A} (a b : A) (l : list A) : py_index (a :: b :: l) 1 = inr b.
Proof. reflexivity. Qed.

Lemma fence_after (sep content after : pystr) (pieces : list pystr) (first : pystr) :
  split sep content = first :: after :: pieces ->
  (after ← py_index (split sep content) 1;
   inside ← py_index (split (u "```") after) 0;
   mret (strip inside))
  = inr (strip (default [] (head (split (u "```") after)))).
Proof.
  intros ->. rewrite py_index_second. cbn [mbind result_bind].
  unfold split at 1 2.
  destruct (split_from_cons (u "```") (S (length after)) [] after)
    as (inside & pieces' & ->).
  by rewrite py_index_first.
Qed.

(** X15. Taking the JSON out of a code fence never raises: both indexings
    of the split text are in range. A reply without a fence is returned as it
    is. *)
Theorem strip_code_fence_never_raises (content : pystr) :
  exists text,
    strip_code_fence content = inr text
    /\ (contains (u "```") content = false -> text = content).
Proof.
  unfold strip_code_fence.
  destruct (contains (u "```json") content) eqn:Hjson.
  - destruct (split_from_two (u "```json") (S (length content)) [] content)
      as (first & after & pieces & Hsplit); [done|done|lia|].
    rewrite (fence_after _ _ _ _ _ Hsplit).
    eexists. split; [done|]. intros Hno.
    apply (contains_app (u "```") (u "json")) in Hjson. congruence.
  - destruct (contains (u "```") content) eqn:Hfence.
    + destruct (split_from_two (u "```") (S (length content)) [] content)
        as (first & after & pieces & Hsplit); [done|done|lia|].
      rewrite (fence_after _ _ _ _ _ Hsplit). by eexists.
    + by eexists.
Qed.

Lemma strip_code_fence_never_raises_witness :
  strip_code_fence (u "{}") = inr (u "{}").
Proof.
  destruct (strip_code_fence_never_raises (u "{}")) as (text & Hrun & Hsame).
  rewrite Hrun. f_equal. apply Hsame. reflexivity.
Defined.

Section split_facts.
Context (h : N) (t : pystr).

Lemma startswith_self (s rest : pystr) : startswith s (s ++ rest) = true.
Proof. induction s as [|c s IH]; [done|]. simpl. by rewrite N.eqb_refl. Qed.

Lemma startswith_other (c : N) (s : pystr) : c <> h -> startswith (h :: t) (c :: s) = false.
Proof. intros Hc. simpl. by rewrite (proj2 (N.eqb_neq h c)). Qed.

Lemma split_from_skip (pre : pystr) (fuel : nat) (cur s : pystr) :
  h ∉ pre ->
  split_from (h :: t) (length pre + fuel) cur (pre ++ s)
  = split_from (h :: t) fuel (rev pre ++ cur) s.
Proof.
  revert cur. induction pre as [|c pre IH]; intros cur Hpre; [done|].
  apply not_elem_of_cons in Hpre as [Hc Hpre].
  cbn [length Nat.add app split_from].
  rewrite startswith_other by done. rewrite IH by done.
  simpl. by rewrite <- app_assoc.
Qed.

Lemma split_from_no_sep (s : pystr) (fuel : nat) (cur : pystr) :
  h ∉ s -> (length s < fuel)%nat ->
  split_from (h :: t) fuel cur s = [rev cur ++ s].
Proof.
  intros Hs Hfuel.
  pose proof (split_from_skip s (S (fuel - length s - 1)) cur [] Hs) as Hskip.
  rewrite app_nil_r in Hskip.
  replace (length s + S (fuel - length s - 1))%nat with fuel in Hskip by lia.
  rewrite Hskip. simpl. by rewrite rev_app_distr, rev_involutive.
Qed.

Lemma split_from_at_sep (fuel : nat) (cur rest : pystr) :
  split_from (h :: t) (S fuel) cur ((h :: t) ++ rest)
  = rev cur :: split_from (h :: t) fuel [] rest.
Proof.
  cbn [split_from app].
  change (h :: t ++ rest) with ((h :: t) ++ rest).
  by rewrite startswith_self, drop_app_length.
Qed.

Lemma contains_skip (pre s : pystr) :
  h ∉ pre -> contains (h :: t) (pre ++ s) = contains (h :: t) s.
Proof.
  induction pre as [|c pre IH]; [done|].
  intros [Hc Hpre]%not_elem_of_cons.
  cbn [app contains]. rewrite startswith_other by done. by apply IH.
Qed.

Lemma contains_at_sep (rest : pystr) : contains (h :: t) ((h :: t) ++ rest) = true.
Proof.
  cbn [app contains]. change (h :: t ++ rest) with ((h :: t) ++ rest).
  by rewrite startswith_self.
Qed.

Lemma first_piece (body rest cur : pystr) (fuel : nat) :
  h ∉ body -> (length body < fuel)%nat ->
  exists pieces,
    split_from (h :: t) fuel cur (body ++ (h :: t) ++ rest) = (rev cur ++ body) :: pieces.
Proof.
  intros Hbody Hfuel.
  replace fuel with (length body + S (fuel - length body - 1))%nat by lia.
  rewrite split_from_skip by done. rewrite split_from_at_sep.
  eexists. by rewrite rev_app_distr, rev_involutive.
Qed.
End split_facts.

Lemma startswith_cons (a b : N) (p s : pystr) :
  startswith (a :: p) (b :: s) = ((a =? b)%N && startswith p s).
Proof. reflexivity. Qed.

Lemma split_from_step_false (sep : pystr) (fuel : nat) (cur : pystr) (c : N)
    (s : pystr) :
  startswith sep (c :: s) = false ->
  split_from sep (S fuel) cur (c :: s) = split_from sep fuel (c :: cur) s.
Proof. intros Hs. cbn [split_from]. by rewrite Hs. Qed.

Lemma split_from_step_true (sep : pystr) (fuel : nat) (cur : pystr) (c : N)
    (s : pystr) :
  startswith sep (c :: s) = true ->
  split_from sep (S fuel) cur (c :: s)
  = rev cur :: split_from sep fuel [] (drop (length sep) (c :: s)).
Proof. intros Hs. cbn [split_from]. by rewrite Hs. Qed.

Lemma json_fence_piece (body post : pystr) (fuel : nat) :
  96%N ∉ body -> 96%N ∉ post ->
  (length body + 3 + length post < fuel)%nat ->
  exists x pieces,
    split_from (u "```json") fuel [] (body ++ u "```" ++ post) = (body ++ x) :: pieces
    /\ (x = [] \/ x = u "```" ++ post).
Proof.
  intros Hbody Hpost Hfuel.
  replace fuel with (length body + S (S (S (S (fuel - length body - 4)))))%nat by lia.
  change (u "```json") with (96%N :: u "``json").
  rewrite split_from_skip by done. rewrite app_nil_r.
  change (u "```" ++ post) with (96%N :: 96%N :: 96%N :: post).
  destruct (startswith (96%N :: u "``json") (96%N :: 96%N :: 96%N :: post)) eqn:Hjson.
  { rewrite split_from_step_true by done.
    eexists [], _. split; [|by left]. by rewrite app_nil_r, rev_involutive. }
  assert (Hshort : startswith (96%N :: u "``json") (96%N :: 96%N :: post) = false
                   /\ startswith (96%N :: u "``json") (96%N :: post) = false).
  { destruct post as [|c post]; [done|].
    apply not_elem_of_cons in Hpost as [Hc _].
    change (u "``json") with (96%N :: 96%N :: u "json").
    rewrite !startswith_cons, (proj2 (N.eqb_neq 96 c)) by done.
    by rewrite !andb_false_r. }
  destruct Hshort as [Htwo Hone].
  rewrite split_from_step_false by done.
  rewrite split_from_step_false by done.
  rewrite split_from_step_false by done.
  rewrite split_from_no_sep by (done || lia).
  eexists _, _. split; [|by right].
  simpl. rewrite rev_involutive, <- !app_assoc. reflexivity.
Qed.

(** X16. From a reply with one fence opened by three backquotes and
    [json], and no other backquote, the text between the fences is taken,
    without the white space around it. *)
Theorem strip_code_fence_extracts_json (pre body post : pystr) :
  96%N ∉ pre -> 96%N ∉ body -> 96%N ∉ post ->
  strip_code_fence (pre ++ u "```json" ++ body ++ u "```" ++ post) = inr (strip body).
Proof.
  intros Hpre Hbody Hpost. unfold strip_code_fence.
  change (u "```json") with (96%N :: u "``json") at 1.
  rewrite contains_skip by done.
  change (u "```json") with (96%N :: u "``json") at 1.
  rewrite contains_at_sep.
  destruct (json_fence_piece body post
              (length (u "```json" ++ body ++ u "```" ++ post)) Hbody Hpost)
    as (x & pieces & Hsplit & Hx).
  { rewrite !length_app. simpl. lia. }
  assert (Hfirst : split (u "```json") (pre ++ u "```json" ++ body ++ u "```" ++ post)
                   = pre :: (body ++ x) :: pieces).
  { unfold split. rewrite length_app.
    change (u "```json") with (96%N :: u "``json") at 1 2.
    rewrite <- Nat.add_succ_r, split_from_skip by done.
    rewrite split_from_at_sep. rewrite app_nil_r, rev_involutive.
    f_equal. exact Hsplit. }
  rewrite (fence_after _ _ _ _ _ Hfirst). do 2 f_equal.
  unfold split. destruct Hx as [->| ->].
  - rewrite app_nil_r.
    pose proof (split_from_no_sep 96%N (u "``") body (S (length body)) [] Hbody) as Hp.
    change (96%N :: u "``") with (u "```") in Hp. rewrite Hp by lia. done.
  - destruct (first_piece 96%N (u "``") body post []
                (S (length (body ++ u "```" ++ post))) Hbody) as [pieces' Hp].
    { rewrite length_app. lia. }
    change (96%N :: u "``") with (u "```") in Hp. by rewrite Hp.
Qed.

Lemma strip_code_fence_extracts_json_witness :
  strip_code_fence (u "Here it is: ```json {} ``` Anything else?") = inr (u "{}").
Proof.
  apply (strip_code_fence_extracts_json (u "Here it is: ") (u " {} ")
           (u " Anything else?"));
    apply (bool_decide_unpack _); vm_compute; exact I.
Defined.

(** ** Replies that end the call *)

Lemma for_each_inl {A B} (f : A -> M B) (l : list A) (x : A) :
  x ∈ l ->
  (forall w, exists e w', f x w = (inl e, w')) ->
  forall w, exists e w', for_each f l w = (inl e, w').
Proof.
  intros Hin Hx. induction l as [|a l IH]; intros w; [by apply elem_of_nil in Hin|].
  cbn [for_each]. destruct (f a w) as [[e|b] w1] eqn:Ha.
  - eexists _, _. by apply bind_M_inl.
  - rewrite (bind_M_step _ _ _ _ _ Ha).
    apply elem_of_cons in Hin as [->|Hin].
    + destruct (Hx w) as (e & w' & He). congruence.
    + destruct (IH Hin w1) as (e & w' & He).
      eexists _, _. by apply bind_M_inl.
Qed.

Lemma IntentType_of_value_Some (s : pystr) (ty : IntentType) :
  IntentType_of_value s = Some ty -> s = IntentType_value ty.
Proof.
  unfold IntentType_of_value.
  repeat case_bool_decide; intros [= <-]; done.
Qed.

Lemma intent_of_info_unknown {RT : Runtime} (message_id : pystr) (info : value)
    (w : World) :
  unknown_category info ->
  exists e w', MultiIntentClassifier.intent_of_info message_id info w = (inl e, w').
Proof.
  intros Hbad. unfold MultiIntentClassifier.intent_of_info.
  destruct (py_getitem info (u "intent_type")) as [e|raw] eqn:Hraw.
  { eexists _, _. by apply bind_M_inl. }
  rewrite (bind_M_step _ _ w w raw) by done.
  destruct (IntentType_call raw) as [e|ty] eqn:Hty.
  { eexists _, _. by apply bind_M_inl. }
  exfalso. destruct info; try discriminate Hraw. simpl in Hraw.
  destruct (dict_lookup d (u "intent_type")) as [v|] eqn:Hd; [|discriminate].
  injection Hraw as ->. unfold IntentType_call in Hty.
  destruct raw; try discriminate Hty.
  destruct (IntentType_of_value s) as [ty'|] eqn:Hs; [|discriminate].
  apply IntentType_of_value_Some in Hs. subst s. by apply (Hbad d ty').
Qed.

(** X17. [classify_intents] returns no intent at all, it raises, as soon
    as one tuple of the reply has a category that is none of the four. *)
Theorem one_unknown_category_fails_classification {RT : Runtime}
    (llm_provider : Provider) (user_message message_id : pystr)
    (conversation_context : option (list value)) (w w1 : World)
    (reply : dict) (tuples : list value) (info : value) :
  MultiIntentClassifier._call_llm_for_classification llm_provider user_message
    conversation_context w = (inr (VDict reply), w1) ->
  dict_lookup reply (u "intents") = Some (VList tuples) ->
  info ∈ tuples ->
  unknown_category info ->
  exists e w',
    MultiIntentClassifier.classify_intents llm_provider user_message message_id
      conversation_context w = (inl e, w').
Proof.
  intros Hcall Hreply Hin Hbad. unfold MultiIntentClassifier.classify_intents.
  rewrite (bind_M_step _ _ _ _ _ Hcall).
  unfold py_get, dict_get. rewrite Hreply.
  rewrite (bind_M_step _ _ w1 w1 (VList tuples)) by done.
  rewrite (bind_M_step _ _ w1 w1 tuples) by done.
  destruct (for_each_inl (MultiIntentClassifier.intent_of_info message_id) tuples info
              Hin (fun w => intent_of_info_unknown message_id info w Hbad) w1)
    as (e & w' & He).
  eexists _, _. by apply bind_M_inl.
Qed.

Lemma one_unknown_category_fails_classification_witness :
  exists e w',
    @MultiIntentClassifier.classify_intents example_runtime_replies OpenAI
      (u "hello") (uuid_str example_message_id) None example_world_replies
    = (inl e, w').
Proof.
  apply (@one_unknown_category_fails_classification example_runtime_replies OpenAI
           (u "hello") (uuid_str example_message_id) None example_world_replies
           example_world_replies
           [ (u "intents",
              VList [ VDict [ (u "intent_type", VStr (u "pricing_query")) ];
                      VDict [ (u "intent_type", VStr (u "greeting")) ] ]) ]
           [ VDict [ (u "intent_type", VStr (u "pricing_query")) ];
             VDict [ (u "intent_type", VStr (u "greeting")) ] ]
           (VDict [ (u "intent_type", VStr (u "greeting")) ])).
  - vm_compute. reflexivity.
  - reflexivity.
  - apply list_elem_of_further, list_elem_of_here.
  - intros d ty [= <-]. destruct ty; vm_compute; intros H; discriminate H.
Defined.

Lemma requirement_of_data_without_session {RT : Runtime} (d : dict) (w : World) :
  uuid_parse [] = None ->
  dict_lookup d (u "session_id") = None ->
  exists e w', RequirementExtractor.requirement_of_data (VDict d) w = (inl e, w').
Proof.
  intros Hparse Hsid. unfold RequirementExtractor.requirement_of_data.
  unfold py_get, dict_get. rewrite Hsid.
  rewrite (bind_M_step _ _ w w (VStr [])) by done.
  destruct (py_getitem (VDict d) (u "requirement_type")) as [e|raw] eqn:Hraw.
  { eexists _, _. by apply bind_M_inl. }
  rewrite (bind_M_step _ _ w w raw) by done.
  destruct (RequirementType_call raw) as [e|ty] eqn:Hty.
  { eexists _, _. by apply bind_M_inl. }
  rewrite (bind_M_step _ _ w w ty) by done.
  destruct (py_getitem (VDict d) (u "requirement_value")) as [e|v] eqn:Hv.
  { eexists _, _. by apply bind_M_inl. }
  rewrite (bind_M_step _ _ w w v) by done.
  rewrite (bind_M_step _ _ w w (match dict_lookup d (u "confidence") with
                                | Some c => c | None => VFloat (4 # 5) end)) by done.
  unfold UserRequirement_init, mbind, M_bind, uuid4, utcnow, lift, pydantic_uuid.
  rewrite Hparse. by eexists _, _.
Qed.

(** X18. [extract_requirements] raises as soon as one requirement of the
    reply carries no session id: the default [""] is refused as a UUID. *)
Theorem extraction_needs_session_ids {RT : Runtime}
    (llm_provider : Provider) (user_message : pystr)
    (conversation_context : option (list value))
    (previous_requirements : option (list UserRequirement.t)) (w w1 : World)
    (reply : dict) (items : list value) (d : dict) :
  uuid_parse [] = None ->
  RequirementExtractor._call_llm_for_extraction llm_provider user_message
    conversation_context w = (inr (VDict reply), w1) ->
  dict_lookup reply (u "requirements") = Some (VList items) ->
  VDict d ∈ items ->
  dict_lookup d (u "session_id") = None ->
  exists e w',
    RequirementExtractor.extract_requirements llm_provider user_message
      conversation_context previous_requirements w = (inl e, w').
Proof.
  intros Hparse Hcall Hreply Hin Hsid.
  unfold RequirementExtractor.extract_requirements.
  assert (exists e w',
             RequirementExtractor.extracted llm_provider user_message
               conversation_context w = (inl e, w')) as (e & w' & He).
  { unfold RequirementExtractor.extracted.
    rewrite (bind_M_step _ _ _ _ _ Hcall).
    unfold py_get, dict_get. rewrite Hreply.
    rewrite (bind_M_step _ _ w1 w1 (VList items)) by done.
    rewrite (bind_M_step _ _ w1 w1 items) by done.
    apply (for_each_inl _ _ (VDict d) Hin).
    intros w0. by apply requirement_of_data_without_session. }
  eexists _, _. by apply bind_M_inl.
Qed.

Lemma extraction_needs_session_ids_witness :
  exists e w',
    @RequirementExtractor.extract_requirements example_runtime_replies OpenAI
      (u "a site for 1000 users") None None example_world_replies
    = (inl e, w').
Proof.
  apply (@extraction_needs_session_ids example_runtime_replies OpenAI
           (u "a site for 1000 users") None None example_world_replies
           example_world_replies
           [ (u "requirements",
              VList [ VDict [ (u "requirement_type", VStr (u "scale"));
                              (u "requirement_value", VStr (u "1000 users"));
                              (u "confidence", VFloat (9 # 10)) ] ]) ]
           [ VDict [ (u "requirement_type", VStr (u "scale"));
                     (u "requirement_value", VStr (u "1000 users"));
                     (u "confidence", VFloat (9 # 10)) ] ]
           [ (u "requirement_type", VStr (u "scale"));
             (u "requirement_value", VStr (u "1000 users"));
             (u "confidence", VFloat (9 # 10)) ]).
  - reflexivity.
  - vm_compute. reflexivity.
  - reflexivity.
  - apply list_elem_of_here.
  - reflexivity.
Defined.

(** X19. The intents that [_classify_intents_node] stores are all pending
    and all refer to one message id, the UUID that the node drew; of the
    state the node changes the recognized intents and nothing else. *)
Theorem classified_intents_carry_a_fresh_message_id {RT : Runtime}
    {RTL : LawfulRuntime RT} (llm_provider : Provider) (state state' : AgentState.t)
    (w w' : World) :
  ConversationOrchestrator._classify_intents_node llm_provider state w
  = (inr state', w') ->
  Forall (fun i => Intent.message_id i = entropy w (uuid_draws w)
                   /\ Intent.status i = PENDING)
         (AgentState.recognized_intents state')
  /\ AgentState.with_recognized_intents (AgentState.recognized_intents state) state'
     = state.
Proof.
  unfold ConversationOrchestrator._classify_intents_node. intros Hrun.
  rewrite (bind_M_step _ _ w (drawn w) (entropy w (uuid_draws w))) in Hrun by done.
  cbv zeta in Hrun. run_inv Hrun. apply ret_M_inr in Hrun as [-> ->].
  split; [|by destruct state].
  simpl. unfold MultiIntentClassifier.classify_intents in Hrun0. run_inv Hrun0.
  apply ret_M_inr in Hrun0 as [-> _].
  rewrite Forall_forall. intros i Hi. rewrite sorted_by_perm in Hi.
  revert i Hi. rewrite <- Forall_forall.
  eapply for_each_Forall; [|exact Hrun3].
  clear -RTL. intros info wa i wb Hinfo. unfold MultiIntentClassifier.intent_of_info in Hinfo.
  run_inv Hinfo. unfold Intent_init in Hinfo. run_inv Hinfo.
  apply lift_inr in Hinfo as [Hinit _]. rewrite uuid_parse_str in Hinit.
  simpl in Hinit.
  repeat match type of Hinit with
         | context [match ?x with _ => _ end] => destruct x; try discriminate Hinit
         end.
  by injection Hinit as <-.
Qed.

Lemma example_node_run :
  exists state' w',
    @ConversationOrchestrator._classify_intents_node example_runtime OpenAI
      example_state example_world = (inr state', w').
Proof. vm_compute. eexists _, _. reflexivity. Qed.

Lemma classified_intents_carry_a_fresh_message_id_witness :
  exists state' w',
    @ConversationOrchestrator._classify_intents_node example_runtime OpenAI
      example_state example_world = (inr state', w')
    /\ Forall (fun i => Intent.message_id i = UUID_of_int 1000
                        /\ Intent.status i = PENDING)
              (AgentState.recognized_intents state').
Proof.
  destruct example_node_run as (state' & w' & Hrun).
  exists state', w'. split; [exact Hrun|].
  exact (proj1 (@classified_intents_carry_a_fresh_message_id example_runtime
                  example_runtime_lawful OpenAI example_state state' example_world w'
                  Hrun)).
Defined.

(** ** The prompts *)

Lemma slice_from_last {A} (older recent : list A) :
  length recent = 5%nat -> slice_from (-5) (older ++ recent) = recent.
Proof.
  intros Hlen. unfold slice_from. simpl. rewrite length_app, Hlen.
  replace (Z.to_nat _) with (length older) by lia.
  apply drop_app_length.
Qed.

Lemma prompts_of_the_last_five {RT : Runtime} (user_message : pystr)
    (older recent : list value) :
  length recent = 5%nat ->
  MultiIntentClassifier._build_classification_prompt user_message
    (Some (older ++ recent))
  = MultiIntentClassifier._build_classification_prompt user_message (Some recent)
  /\ RequirementExtractor._build_extraction_prompt user_message (Some (older ++ recent))
     = RequirementExtractor._build_extraction_prompt user_message (Some recent).
Proof.
  intros Hlen.
  assert (Hmore : exists c cs, older ++ recent = c :: cs).
  { destruct older; [|by eexists _, _]. destruct recent; [done|by eexists _, _]. }
  destruct Hmore as (c & cs & Hmore).
  pose proof (slice_from_last older recent Hlen) as Hslice.
  pose proof (slice_from_last [] recent Hlen) as Hslice'. simpl in Hslice'.
  rewrite Hmore in *. destruct recent as [|r recent]; [done|].
  split.
  - unfold MultiIntentClassifier._build_classification_prompt,
      MultiIntentClassifier.context_text.
    by rewrite Hslice, Hslice'.
  - unfold RequirementExtractor._build_extraction_prompt,
      RequirementExtractor.context_text.
    by rewrite Hslice, Hslice'.
Qed.

(** X20. Both prompts are built from the last five messages of the context:
    what comes before them does not change the prompt, and is not even read. *)
Theorem prompts_read_the_last_five_messages {RT : Runtime} (user_message : pystr)
    (older recent : list value) :
  length recent = 5%nat ->
  MultiIntentClassifier._build_classification_prompt user_message
    (Some (older ++ recent))
  = MultiIntentClassifier._build_classification_prompt user_message (Some recent)
  /\ RequirementExtractor._build_extraction_prompt user_message (Some (older ++ recent))
     = RequirementExtractor._build_extraction_prompt user_message (Some recent).
Proof. apply prompts_of_the_last_five. Qed.

Lemma prompts_read_the_last_five_messages_witness :
  @MultiIntentClassifier._build_classification_prompt example_runtime (u "how much?")
    (Some ([VStr (u "not a message")]
             ++ replicate 5 (AgentState.history_entry example_user_message)))
  = @MultiIntentClassifier._build_classification_prompt example_runtime (u "how much?")
      (Some (replicate 5 (AgentState.history_entry example_user_message))).
Proof.
  exact (proj1 (@prompts_read_the_last_five_messages example_runtime (u "how much?")
                  [VStr (u "not a message")]
                  (replicate 5 (AgentState.history_entry example_user_message))
                  eq_refl)).
Defined.

(** X21. The history that [get_context_messages] fetches lists the newest
    message first, so of a window of five or more messages the prompts show
    the five at its end: the oldest of the window. *)
Theorem fetched_history_prompt_shows_the_oldest {RT : Runtime} (user_message : pystr)
    (max_messages : nat) (session_id : UUID) (limit : option nat) (w : World) :
  let window := newest_messages w session_id (effective_limit max_messages limit) in
  (5 <= length window)%nat ->
  exists history,
    HistoryManager.get_context_messages max_messages session_id limit w
    = (inr history, w)
    /\ MultiIntentClassifier._build_classification_prompt user_message (Some history)
       = MultiIntentClassifier._build_classification_prompt user_message
           (Some (context_entry <$> drop (length window - 5) window))
    /\ RequirementExtractor._build_extraction_prompt user_message (Some history)
       = RequirementExtractor._build_extraction_prompt user_message
           (Some (context_entry <$> drop (length window - 5) window)).
Proof.
  intros window Hlen. exists (context_entry <$> window).
  split; [by destruct limit as [[|n]|]|].
  assert (Hsplit : context_entry <$> window
                   = (context_entry <$> take (length window - 5) window)
                       ++ (context_entry <$> drop (length window - 5) window))
    by (by rewrite <- fmap_app, take_drop).
  rewrite Hsplit. apply prompts_of_the_last_five.
  rewrite length_fmap, length_drop. lia.
Qed.

Lemma fetched_history_prompt_shows_the_oldest_witness :
  exists history,
    @HistoryManager.get_context_messages example_runtime 50 example_session None
      example_long_world = (inr history, example_long_world)
    /\ length history = 6%nat
    /\ @MultiIntentClassifier._build_classification_prompt example_runtime
         (u "how much?") (Some history)
       = @MultiIntentClassifier._build_classification_prompt example_runtime
           (u "how much?")
           (Some (@context_entry example_runtime
                    <$> drop 1 (newest_messages example_long_world example_session 50))).
Proof.
  destruct (@fetched_history_prompt_shows_the_oldest example_runtime (u "how much?")
              50 example_session None example_long_world)
    as (history & Hrun & Hprompt & _).
  - vm_compute. lia.
  - exists history. split; [exact Hrun|]. split; [|exact Hprompt].
    vm_compute in Hrun. injection Hrun as <-. reflexivity.
Defined.

(** ** The knowledge base and its validator *)

(** X22. [get_service] looks a service up under the upper case form of the
    name asked for, [add_service] stores it under its name as given: a
    service is found by the names whose upper case form is its name, and a
    service whose name is no upper case form is found by no name. *)
Theorem get_service_finds_upper_case_names {CS : Casing} (kb : AWSKnowledgeBase.t)
    (service : ServiceMetadata.t) :
  (forall query,
      AWSKnowledgeBase.get_service (AWSKnowledgeBase.add_service service kb) query
      = if decide (upper query = ServiceMetadata.service_name service)
        then Some service
        else AWSKnowledgeBase.get_service kb query)
  /\ ((forall query, upper query <> ServiceMetadata.service_name service) ->
      forall query,
        AWSKnowledgeBase.get_service (AWSKnowledgeBase.add_service service kb) query
        = AWSKnowledgeBase.get_service kb query).
Proof.
  assert (Hget : forall query,
             AWSKnowledgeBase.get_service (AWSKnowledgeBase.add_service service kb) query
             = if decide (upper query = ServiceMetadata.service_name service)
               then Some service
               else AWSKnowledgeBase.get_service kb query).
  { intros query. unfold AWSKnowledgeBase.get_service, AWSKnowledgeBase.add_service.
    destruct (decide (upper query = ServiceMetadata.service_name service)) as [->|Hne].
    - apply odict_lookup_set_eq.
    - by apply odict_lookup_set_ne. }
  split; [done|]. intros Hhidden query. rewrite Hget. by rewrite decide_False.
Qed.

Lemma ascii_upper_no_lower_case (s : pystr) :
  Forall (fun c => ~ (97 <= c <= 122)%N) (ascii_upper s).
Proof.
  unfold ascii_upper. rewrite Forall_fmap. apply Forall_forall. intros c _. simpl.
  destruct (N.leb_spec 97 c), (N.leb_spec c 122); simpl; lia.
Qed.

Lemma get_service_finds_upper_case_names_witness :
  @AWSKnowledgeBase.get_service sample_casing
    (AWSKnowledgeBase.add_service example_lambda AWSServiceCatalog.get_knowledge_base)
    (u "Lambda")
  = None.
Proof.
  rewrite (proj2 (@get_service_finds_upper_case_names sample_casing
                    AWSServiceCatalog.get_knowledge_base example_lambda)).
  - vm_compute. reflexivity.
  - intros query Heq.
    pose proof (ascii_upper_no_lower_case query) as Hupper.
    change (upper query) with (ascii_upper query) in Heq. rewrite Heq in Hupper.
    apply Forall_cons in Hupper as [_ Hupper].
    apply Forall_cons in Hupper as [Ha _]. apply Ha. vm_compute. split; discriminate.
Defined.

Lemma odict_lookup_keys {K V} `{EqDecision K} (d : list (K * V)) (k : K) (v : V) :
  odict_lookup d k = Some v -> k ∈ d.*1.
Proof.
  induction d as [|[k' v'] d IH]; [done|]. csimpl.
  destruct (decide (k' = k)) as [->|Hne]; [intros _; apply list_elem_of_here|].
  intros Hd. by apply list_elem_of_further, IH.
Qed.

Lemma add_description_keys (alignment : list (pystr * pystr))
    (item : WellArchitectedPillar.t * pystr) :
  (AWSServiceValidator.add_description alignment item).*1 = alignment.*1.
Proof.
  unfold AWSServiceValidator.add_description. cbv zeta.
  destruct (odict_lookup alignment (WellArchitectedPillar.value item.1))
    as [[|c current]|] eqn:Hl; [| |done];
    rewrite odict_set_keys, bool_decide_eq_true_2; try done;
    by eapply odict_lookup_keys.
Qed.

Lemma descriptions_keys (items : list (WellArchitectedPillar.t * pystr))
    (alignment : list (pystr * pystr)) :
  (foldl AWSServiceValidator.add_description alignment items).*1 = alignment.*1.
Proof.
  revert alignment. induction items as [|item items IH]; intros alignment; [done|].
  cbn [foldl]. by rewrite IH, add_description_keys.
Qed.

Lemma alignment_keys {CS : Casing} (kb : AWSKnowledgeBase.t) (services : list pystr) :
  (AWSServiceValidator._check_well_architected_alignment kb services).*1 = pillar_keys.
Proof.
  unfold AWSServiceValidator._check_well_architected_alignment. cbv zeta.
  set (start := [(u "operational_excellence", []); _; _; _; _; _]).
  change pillar_keys with start.*1. generalize start. clear start.
  induction services as [|service_name services IH]; intros alignment; [done|].
  cbn [foldl]. rewrite IH.
  destruct (AWSKnowledgeBase.get_service kb service_name); [|done].
  apply descriptions_keys.
Qed.

Section validate_architecture_facts.
Context {CS : Casing} (kb : AWSKnowledgeBase.t).
Context (configurations : option (list (gmap pystr (UUID + value)))).

Lemma validate_service_cases (service_name : pystr)
    (configuration : option (gmap pystr (UUID + value))) :
  AWSServiceValidator.validate_service kb service_name configuration
  = match AWSKnowledgeBase.get_service kb service_name with
    | None =>
      AWSServiceValidator.mk_service_result false []
        [ u "Service '" ++ service_name ++ u "' not found in knowledge base" ] None
    | Some service_metadata =>
      AWSServiceValidator.mk_service_result true [] [] (Some service_metadata)
    end.
Proof.
  unfold AWSServiceValidator.validate_service.
  destruct (AWSKnowledgeBase.get_service kb service_name); [|done].
  destruct configuration as [c|]; [|done]. by case_bool_decide.
Qed.

Lemma validate_fold (services : list pystr) (res : AWSServiceValidator.t) :
  let res' := foldl (AWSServiceValidator.validate_one kb configurations) res services in
  AWSServiceValidator.valid res'
  = (AWSServiceValidator.valid res
     && forallb (fun n => bool_decide (is_Some (AWSKnowledgeBase.get_service kb n)))
                services)
  /\ AWSServiceValidator.errors res'
     = AWSServiceValidator.errors res
       ++ ((fun n => u "Service '" ++ n ++ u "' not found in knowledge base")
             <$> filter (fun n => ¬ is_Some (AWSKnowledgeBase.get_service kb n)) services)
  /\ AWSServiceValidator.warnings res' = AWSServiceValidator.warnings res
  /\ length (AWSServiceValidator.service_validations res')
     = (length (AWSServiceValidator.service_validations res) + length services)%nat.
Proof.
  revert res. induction services as [|n services IH]; intros res.
  - cbn [foldl forallb length]. rewrite filter_nil, fmap_nil, andb_true_r, app_nil_r.
    split; [reflexivity|]. split; [reflexivity|]. split; [reflexivity|]. lia.
  - cbn [foldl]. cbv zeta in IH.
    destruct (IH (AWSServiceValidator.validate_one kb configurations res n))
      as (Hv & He & Hw & Hl).
    rewrite Hv, He, Hw, Hl. clear IH Hv He Hw Hl.
    unfold AWSServiceValidator.validate_one. cbv zeta.
    rewrite validate_service_cases. cbn [forallb length].
    destruct (AWSKnowledgeBase.get_service kb n) as [m|] eqn:Hn;
      cbn [AWSServiceValidator.service_valid AWSServiceValidator.service_warnings
           AWSServiceValidator.service_errors AWSServiceValidator.valid
           AWSServiceValidator.errors AWSServiceValidator.warnings
           AWSServiceValidator.service_validations].
    + rewrite bool_decide_eq_true_2 by eauto.
      rewrite filter_cons_False by (rewrite ?Hn; intros Hno; apply Hno; eauto).
      rewrite app_nil_r, length_app. cbn [length andb]. split; [reflexivity|]. split; [reflexivity|]. split; [reflexivity|]. lia.
    + rewrite bool_decide_eq_false_2 by apply is_Some_None.
      rewrite filter_cons_True by (rewrite ?Hn; apply is_Some_None).
      rewrite fmap_cons, app_nil_r, length_app, andb_false_r, <- app_assoc.
      cbn [length andb app]. split; [reflexivity|]. split; [reflexivity|]. split; [reflexivity|]. lia.
Qed.
End validate_architecture_facts.

(** X23. [validate_architecture] reports valid exactly when every service
    is found in the knowledge base; its errors are one message for each
    service that is not found, in the order of the list; it has no warnings,
    one validation for each service, and an alignment with the six pillar
    keys. *)
Theorem validate_architecture_reports_unknown_services {CS : Casing}
    (kb : AWSKnowledgeBase.t) (services : list pystr)
    (configurations : option (list (gmap pystr (UUID + value)))) :
  let res := AWSServiceValidator.validate_architecture kb services configurations in
  (AWSServiceValidator.valid res = true
   <-> Forall (fun n => is_Some (AWSKnowledgeBase.get_service kb n)) services)
  /\ AWSServiceValidator.errors res
     = (fun n => u "Service '" ++ n ++ u "' not found in knowledge base")
         <$> filter (fun n => ¬ is_Some (AWSKnowledgeBase.get_service kb n)) services
  /\ AWSServiceValidator.warnings res = []
  /\ length (AWSServiceValidator.service_validations res) = length services
  /\ (AWSServiceValidator.well_architected_alignment res).*1
     = [ u "operational_excellence"; u "security"; u "reliability";
         u "performance_efficiency"; u "cost_optimization"; u "sustainability" ].
Proof.
  cbv zeta. unfold AWSServiceValidator.validate_architecture. cbv zeta. cbn [AWSServiceValidator.valid AWSServiceValidator.errors AWSServiceValidator.warnings AWSServiceValidator.service_validations AWSServiceValidator.well_architected_alignment].
  destruct (validate_fold kb configurations services
              (AWSServiceValidator.mk true [] [] [] [])) as (Hv & He & Hw & Hl).
  rewrite Hv, He, Hw, Hl.
  cbn [AWSServiceValidator.valid AWSServiceValidator.errors AWSServiceValidator.warnings
       AWSServiceValidator.service_validations andb app length Nat.add].
  split; [|split; [done|split; [done|split; [done|]]]].
  - rewrite forallb_forall, Forall_forall.
    split; intros Hall n Hn.
    + apply list_elem_of_In, Hall in Hn. by apply bool_decide_eq_true in Hn.
    + apply bool_decide_eq_true, Hall. by apply list_elem_of_In.
  - apply alignment_keys.
Qed.

Lemma pillar_value_inj (p q : WellArchitectedPillar.t) :
  WellArchitectedPillar.value p = WellArchitectedPillar.value q -> p = q.
Proof. destruct p, q; first [reflexivity | intros H; vm_compute in H; discriminate H]. Qed.

Lemma add_description_lookup (alignment : list (pystr * pystr))
    (item : WellArchitectedPillar.t * pystr) (pillar : WellArchitectedPillar.t)
    (current : pystr) :
  odict_lookup alignment (WellArchitectedPillar.value pillar) = Some current ->
  odict_lookup (AWSServiceValidator.add_description alignment item)
               (WellArchitectedPillar.value pillar)
  = Some (if decide (item.1 = pillar) then extended current [item.2] else current).
Proof.
  intros Hcur. unfold AWSServiceValidator.add_description. cbv zeta.
  destruct (decide (item.1 = pillar)) as [->|Hne].
  - rewrite Hcur. destruct current; by rewrite odict_lookup_set_eq.
  - assert (WellArchitectedPillar.value item.1 <> WellArchitectedPillar.value pillar)
      by (intros Heq; by apply pillar_value_inj in Heq).
    destruct (odict_lookup alignment (WellArchitectedPillar.value item.1))
      as [[|c cs]|]; by rewrite ?odict_lookup_set_ne.
Qed.

Lemma descriptions_lookup (items : list (WellArchitectedPillar.t * pystr))
    (alignment : list (pystr * pystr)) (pillar : WellArchitectedPillar.t)
    (current : pystr) :
  odict_lookup alignment (WellArchitectedPillar.value pillar) = Some current ->
  odict_lookup (foldl AWSServiceValidator.add_description alignment items)
               (WellArchitectedPillar.value pillar)
  = Some (extended current (snd <$> filter (fun item => item.1 = pillar) items)).
Proof.
  revert alignment current.
  induction items as [|item items IH]; intros alignment current Hcur; [done|].
  cbn [foldl].
  rewrite (IH _ _ (add_description_lookup alignment item pillar current Hcur)).
  destruct (decide (item.1 = pillar)) as [Heq|Hne].
  - by rewrite filter_cons_True.
  - by rewrite filter_cons_False.
Qed.

Lemma extended_app (current : pystr) (ds1 ds2 : list pystr) :
  extended current (ds1 ++ ds2) = extended (extended current ds1) ds2.
Proof. apply foldl_app. Qed.

Lemma extended_join (current : pystr) (descriptions : list pystr) :
  current <> [] ->
  Forall (fun d => d <> []) descriptions ->
  extended current descriptions = join (u "; ") (current :: descriptions).
Proof.
  revert current.
  induction descriptions as [|d ds IH]; intros current Hcur Hds; [done|].
  apply Forall_cons in Hds as [Hd Hds].
  unfold extended. cbn [foldl]. fold (extended (match current with
    | [] => d | _ :: _ => current ++ u "; " ++ d end) ds).
  destruct current as [|c cur]; [done|].
  rewrite IH; [|done|done].
  cbn [join]. destruct ds as [|d' ds']; [done|].
  by rewrite <- !app_assoc.
Qed.

Lemma pillar_descriptions_cons {CS : Casing} (kb : AWSKnowledgeBase.t) (n : pystr)
    (services : list pystr) (pillar : WellArchitectedPillar.t) :
  pillar_descriptions kb (n :: services) pillar
  = match AWSKnowledgeBase.get_service kb n with
    | Some service_metadata =>
      (snd <$> filter (fun item => item.1 = pillar)
                 (ServiceMetadata.well_architected_alignment service_metadata))
      ++ pillar_descriptions kb services pillar
    | None => pillar_descriptions kb services pillar
    end.
Proof.
  unfold pillar_descriptions. csimpl.
  by destruct (AWSKnowledgeBase.get_service kb n).
Qed.

(** X24. For each pillar, [_check_well_architected_alignment] returns the
    descriptions that the services found in the knowledge base give for it,
    joined by ["; "] in the order of the services, when none of these
    descriptions is empty. A service that is not found adds nothing, and a
    service named twice adds its description twice. *)
Theorem alignment_joins_the_descriptions {CS : Casing} (kb : AWSKnowledgeBase.t)
    (services : list pystr) (pillar : WellArchitectedPillar.t) :
  Forall (fun description => description <> [])
         (pillar_descriptions kb services pillar) ->
  odict_lookup (AWSServiceValidator._check_well_architected_alignment kb services)
               (WellArchitectedPillar.value pillar)
  = Some (join (u "; ") (pillar_descriptions kb services pillar)).
Proof.
  intros Hfull.
  assert (Hloop : forall alignment current,
             odict_lookup alignment (WellArchitectedPillar.value pillar) = Some current ->
             odict_lookup
               (foldl (fun alignment service_name =>
                         match AWSKnowledgeBase.get_service kb service_name with
                         | Some service_metadata =>
                           foldl AWSServiceValidator.add_description alignment
                                 (ServiceMetadata.well_architected_alignment
                                    service_metadata)
                         | None => alignment
                         end)
                      alignment services)
               (WellArchitectedPillar.value pillar)
             = Some (extended current (pillar_descriptions kb services pillar))).
  { clear Hfull. induction services as [|n services IH]; intros alignment current Hcur;
      [done|].
    cbn [foldl]. rewrite pillar_descriptions_cons.
    destruct (AWSKnowledgeBase.get_service kb n) as [m|].
    - rewrite extended_app. apply IH. by apply descriptions_lookup.
    - by apply IH. }
  unfold AWSServiceValidator._check_well_architected_alignment. cbv zeta.
  rewrite (Hloop _ []) by (by destruct pillar).
  f_equal. destruct (pillar_descriptions kb services pillar) as [|d ds]; [done|].
  apply Forall_cons in Hfull as [Hd Hds].
  change (extended [] (d :: ds)) with (extended d ds). by apply extended_join.
Qed.

Lemma alignment_joins_the_descriptions_witness :
  odict_lookup
    (@AWSServiceValidator._check_well_architected_alignment sample_casing
       AWSServiceCatalog.get_knowledge_base [u "ec2"; u "Lambda"; u "EC2"])
    (u "security")
  = Some (u "Network security groups, IAM roles; Network security groups, IAM roles").
Proof.
  change (u "security") with (WellArchitectedPillar.value WellArchitectedPillar.SECURITY).
  rewrite (@alignment_joins_the_descriptions sample_casing).
  - vm_compute. reflexivity.
  - vm_compute. repeat constructor; discriminate.
Defined.
